(** * ai-wrapper: a shallow embedding of the transport, the streaming decoder
    and the service registry, with the properties of their specification.

    Packages of the Go program become modules of the same name:
    - [ai]     : internal/ai/model.go and internal/ai/service.go
    - [openai] : internal/ai/provider/openai/client.go and chat.go

    Goroutines that feed a channel are modelled by the ordered list of the
    values they send before the channel is closed (channels are FIFO and the
    producers block when the buffer is full, so nothing is dropped).
    Side effects (log lines, HTTP attempts, sleeps, closing a body) are
    recorded as an explicit trace of events. *)

From Stdlib Require Import ZArith String Ascii List Lia Bool Floats.
From stdpp Require Import gmap strings.
Import ListNotations.

Local Open Scope Z_scope.


(** ** Go's [error] values

    One constructor for each error the repository builds, and one for the
    errors that come out of the libraries it calls (net/http, encoding/json,
    bufio). [fmt.Errorf("...: %w", err)] wraps its cause. *)

(** [type Error struct] of model.go: the vendor-reported failure. *)
Record ProviderError := mkProviderError {
  e_Code : string;
  e_Message : string;
  e_Type : string;
}.

Inductive error : Type :=
| ErrExternal (msg : string)
    (* an error value of a library: network failure, timeout, JSON syntax *)
| ErrMarshal (cause : error)
    (* "failed to marshal request body: %w" *)
| ErrCreateRequest (cause : error)
    (* "failed to create request: %w" *)
| ErrRequestFailed (retries : Z) (cause : error)
    (* "request failed after %d retries: %w" *)
| ErrVendor (e : ProviderError)
    (* &ai.Error{Code, Message, Type} *)
| ErrAPI (status : Z) (rawBody : string)
    (* "API error: %d %s" *)
| ErrStreamParse (cause : error)
    (* "failed to parse stream response: %w" *)
| ErrStreamScan (cause : error)
    (* "stream scanning error: %w" *)
| ErrNotFound (name : string)
    (* "provider '%s' not found" *)
| ErrDecode (cause : error).
    (* "failed to decode response: %w" *)

(** A Go pair [(value, error)] in which exactly one side is set. *)
Inductive result (A : Type) : Type :=
| Ok (a : A)
| Err (e : error)
| Panic.
    (* a nil dereference: the call does not return *)
Arguments Ok {A} a.
Arguments Err {A} e.
Arguments Panic {A}.

(** ** The world outside the program

    What the program observes of net/http: the body of a response is a
    sequence of bytes that ends at EOF or with a read error, and can be
    closed; the [Read] that returns its last bytes may report the end with
    them ([endWithData], as a body of known length does) or leave it to the
    next [Read]; [http.Client.Do] returns a response, or an error (with
    which a response comes only when a redirect was refused). *)

Record Body := mkBody {
  data : string;
  readErr : option error;
  endWithData : bool;
  closed : bool;
}.

Record Response := mkResponse {
  StatusCode : Z;
  RespBody : Body;
}.

Inductive DoResult : Type :=
| DoOk (r : Response)
| DoErr (e : error) (r : option Response).

Definition doResp (d : DoResult) : option Response :=
  match d with DoOk r => Some r | DoErr _ r => r end.

Definition doErr (d : DoResult) : option error :=
  match d with DoOk _ => None | DoErr e _ => Some e end.

(** [resp.Body.Close()] *)
Definition Close (r : Response) : Response :=
  {| StatusCode := StatusCode r;
     RespBody := {| data := data (RespBody r);
                    readErr := readErr (RespBody r);
                    endWithData := endWithData (RespBody r);
                    closed := true |} |}.

(** [body, _ := io.ReadAll(resp.Body)]: the bytes read before EOF or before
    the first error, the error being dropped. Reading a closed body fails at
    once, so nothing is read. *)
Definition ReadAll (b : Body) : string :=
  if closed b then "" else data b.

(** An argument of a log line; a measured duration depends on the clock and
    is left abstract. *)
Inductive logArg : Type :=
| LStr (s : string)
| LInt (z : Z)
| LErr (e : error)
| LDuration.

(** Events of a run, in the order they happen. *)
Inductive event : Type :=
| EvDo (i : Z)                 (* c.httpClient.Do(req), loop index i *)
| EvClose (i : Z)              (* resp.Body.Close() inside the loop *)
| EvSleep (d : Z)              (* time.Sleep(d), d in nanoseconds *)
| EvCloseFinal                 (* the deferred resp.Body.Close() *)
| EvLog (format : string) (args : list logArg) (* logger.Printf *)
| EvChat (provider : string)   (* provider.Chat is entered *)
| EvChatStream (provider : string). (* provider.ChatStream is entered *)

(** Go's [int] and [int64] on a 64-bit platform. *)
Definition wrap64 (z : Z) : Z := (z + 2 ^ 63) mod 2 ^ 64 - 2 ^ 63.

(** [time.Second], in nanoseconds. *)
Definition Second : Z := 1000000000.

(** [strings.HasPrefix] and [strings.TrimPrefix] *)
Definition HasPrefix (s p : string) : bool := String.prefix p s.

Definition TrimPrefix (s p : string) : string :=
  if HasPrefix s p
  then substring (String.length p) (String.length s - String.length p) s
  else s.

(** ** Package ai: model.go *)

Module ai.

Record Message := mkMessage {
  Role : string;
  msg_Content : string;
}.

Record ChatRequest := mkChatRequest {
  Messages : list Message;
  Model : string;
  MaxTokens : Z;
  Temperature : float;
  Stream : bool;
}.

Record Usage := mkUsage {
  PromptTokens : Z;
  CompletionTokens : Z;
  TotalTokens : Z;
}.

Record ChatResponse := mkChatResponse {
  resp_ID : string;
  resp_Model : string;
  resp_Content : string;
  resp_Usage : Usage;
  Created : Z;
}.

(** [type StreamResponse struct]: one chunk of a streamed answer. *)
Record StreamResponse := mkStreamResponse {
  ID : string;
  Content : string;
  Done : bool;
  Error : option error;
}.

(** [type Config struct]. [Timeout] is a [time.Duration], a count of
    nanoseconds. *)
Record Config := mkConfig {
  APIKey : string;
  BaseURL : string;
  Timeout : Z;
  MaxRetries : Z;
  ExtraParams : gmap string string;
}.

(** A chunk ends a stream when it is marked done or carries an error. *)
Definition hasError (c : StreamResponse) : bool :=
  match Error c with Some _ => true | None => false end.

Definition terminal (c : StreamResponse) : bool := Done c || hasError c.

(** ** Package ai: service.go *)

(** [type Provider interface]. A method returns the events it causes and
    its result; a channel is the list of chunks it delivers. *)
Record Provider := mkProvider {
  Chat : ChatRequest -> list event * result ChatResponse;
  ChatStream : ChatRequest -> list event * result (list StreamResponse);
  GetName : string;
  GetAvailableModels : list event * result (list string);
}.

(** [type Service struct]; what the logger prints is in the events. *)
Record Service := mkService {
  providers : gmap string Provider;
}.

Definition NewService : Service := {| providers := ∅ |}.

Definition RegisterProvider (s : Service) (name : string) (provider : Provider)
    : list event * Service :=
  ([EvLog "Registered AI provider: %s" [LStr name]],
   {| providers := <[name := provider]> (providers s) |}).

Definition GetProvider (s : Service) (name : string) : result Provider :=
  match providers s !! name with
  | Some provider => Ok provider
  | None => Err (ErrNotFound name)
  end.

Definition ServiceChat (s : Service) (providerName : string) (req : ChatRequest)
    : list event * result ChatResponse :=
  match GetProvider s providerName with
  | Err err => ([], Err err)
  | Panic => ([], Panic)
  | Ok provider =>
    let starting :=
      EvLog "Sending chat request to %s with model %s"
            [LStr providerName; LStr (Model req)] in
    let '(evs, r) := Chat provider req in
    let evs := starting :: EvChat providerName :: evs in
    match r with
    | Err err =>
      (evs ++ [EvLog "Chat request to %s failed after %v: %v"
                     [LStr providerName; LDuration; LErr err]],
       Err err)
    | Panic => (evs, Panic)
    | Ok response =>
      (evs ++ [EvLog "Chat request to %s completed in %v (tokens: %d)"
                     [LStr providerName; LDuration;
                      LInt (TotalTokens (resp_Usage response))]],
       Ok response)
    end
  end.

(** The goroutine that copies [stream] to [loggedStream]: the chunks it
    sends before it closes [loggedStream], and what it logs. *)
Fixpoint logStream (providerName : string) (stream : list StreamResponse)
    (totalChunks : Z) : list StreamResponse * list event :=
  match stream with
  | [] => ([], [])
  | chunk :: rest =>
    match Error chunk with
    | Some err =>
      ([chunk],
       [EvLog "Stream error from %s: %v" [LStr providerName; LErr err]])
    | None =>
      if Done chunk then
        ([chunk],
         [EvLog "Stream chat request to %s completed in %v (%d chunks)"
                [LStr providerName; LDuration; LInt totalChunks]])
      else
        let '(out, evs) := logStream providerName rest (totalChunks + 1) in
        (chunk :: out, evs)
    end
  end.

(** [func (s *Service) ChatStream]: the events before it returns, and on
    success the chunks of [loggedStream] with the log of its goroutine. *)
Definition ServiceChatStream (s : Service) (providerName : string)
    (req : ChatRequest)
    : list event * result (list StreamResponse * list event) :=
  match GetProvider s providerName with
  | Err err => ([], Err err)
  | Panic => ([], Panic)
  | Ok provider =>
    let starting :=
      EvLog "Starting stream chat request to %s with model %s"
            [LStr providerName; LStr (Model req)] in
    let '(evs, r) := ChatStream provider req in
    let evs := starting :: EvChatStream providerName :: evs in
    match r with
    | Err err =>
      (evs ++ [EvLog "Stream chat request to %s failed: %v"
                     [LStr providerName; LErr err]],
       Err err)
    | Panic => (evs, Panic)
    | Ok stream => (evs, Ok (logStream providerName stream 0))
    end
  end.

(** [func (s *Service) ListProviders]. Go ranges over a map in an order
    that it does not specify; the order taken here is one of them, and only
    what holds for every order is proved of it. *)
Definition ListProviders (s : Service) : list string :=
  (map_to_list (providers s)).*1.

(** The request of [SimpleChat] and [ChatWithHistory]: the fields that the
    composite literal leaves out are zero. *)
Definition historyRequest (model : string) (messages : list Message)
    : ChatRequest :=
  {| Messages := messages;
     Model := model;
     MaxTokens := 0;
     Temperature := 0%float;
     Stream := false |}.

(** [return response.Content, nil], or the error. *)
Definition contentOf (r : result ChatResponse) : result string :=
  match r with
  | Ok response => Ok (resp_Content response)
  | Err err => Err err
  | Panic => Panic
  end.

Definition SimpleChat (s : Service) (providerName model message : string)
    : list event * result string :=
  let req :=
    historyRequest model [{| Role := "user"; msg_Content := message |}] in
  let '(evs, r) := ServiceChat s providerName req in
  (evs, contentOf r).

Definition ChatWithHistory (s : Service) (providerName model : string)
    (messages : list Message) : list event * result string :=
  let req := historyRequest model messages in
  let '(evs, r) := ServiceChat s providerName req in
  (evs, contentOf r).

Definition GetProviderModels (s : Service) (providerName : string)
    : list event * result (list string) :=
  match GetProvider s providerName with
  | Err err => ([], Err err)
  | Panic => ([], Panic)
  | Ok provider => GetAvailableModels provider
  end.

(** The test message of [HealthCheck]. *)
Definition healthRequest : ChatRequest :=
  {| Messages := [{| Role := "user"; msg_Content := "Hello" |}];
     Model := "";
     MaxTokens := 10;
     Temperature := 0%float;
     Stream := false |}.

(** [func (s *Service) HealthCheck]: the provider is called directly, and
    only its error is kept. *)
Definition HealthCheck (s : Service) (providerName : string)
    : list event * result unit :=
  match GetProvider s providerName with
  | Err err => ([], Err err)
  | Panic => ([], Panic)
  | Ok provider =>
    let '(evs, r) := Chat provider healthRequest in
    (EvChat providerName :: evs,
     match r with
     | Ok _ => Ok tt
     | Err err => Err err
     | Panic => Panic
     end)
  end.

End ai.

(** ** Package openai: client.go *)

Module openai.

Definition DefaultBaseURL : string := "https://api.openai.com/v1".
Definition DefaultTimeout : Z := 30 * Second.

Record Client := mkClient {
  apiKey : string;
  baseURL : string;
  httpClient_Timeout : Z;
  maxRetries : Z;
}.

Definition NewClient (config : ai.Config) : Client :=
  let baseURL := ai.BaseURL config in
  let baseURL := if String.eqb baseURL "" then DefaultBaseURL else baseURL in
  let timeout := ai.Timeout config in
  let timeout := if timeout =? 0 then DefaultTimeout else timeout in
  let maxRetries := ai.MaxRetries config in
  let maxRetries := if maxRetries =? 0 then 3 else maxRetries in
  {| apiKey := ai.APIKey config;
     baseURL := baseURL;
     httpClient_Timeout := timeout;
     maxRetries := maxRetries |}.

Definition GetName (c : Client) : string := "openai".

Record openAIMessage := mkOpenAIMessage {
  m_Role : string;
  m_Content : string;
}.

Record openAIChatRequest := mkOpenAIChatRequest {
  r_Model : string;
  r_Messages : list openAIMessage;
  r_MaxTokens : Z;
  r_Temperature : float;
  r_Stream : bool;
}.

(** [*http.Request] as [makeRequest] builds it. *)
Record Request := mkRequest {
  Method : string;
  URL : string;
  ReqBody : option string;
  Header : list (string * string);
}.

(** [time.Duration(i+1) * time.Second] *)
Definition backoff (i : Z) : Z := wrap64 (wrap64 (i + 1) * Second).

Section Transport.

(** [json.Marshal] of a request body; [http.NewRequestWithContext], which
    rejects a bad method or URL; the vendor, which answers the request at
    each call of [Do]; [json.Unmarshal] into the error envelope (an object
    [error] with fields [message], [type] and [code]), [None] when it
    returns an error. *)
Variable jsonMarshal : openAIChatRequest -> string + error.
Variable newRequestErr : string -> string -> option error.
Variable Do : Request -> Z -> DoResult.
Variable unmarshalEnvelope : string -> option ProviderError.

(** The state of the loop: the variables [resp] and [err]. *)
Definition loopVars : Type := option Response * option error.

(** [for i := 0; i <= c.maxRetries; i++ { ... }], from index [i] on. The
    first argument counts the iterations that the loop condition still
    allows, [c.maxRetries - i + 1]. *)
Fixpoint retryLoop (c : Client) (req : Request) (n : nat) (i : Z)
    (vars : loopVars) : list event * loopVars :=
  match n with
  | O => ([], vars)
  | S n' =>
    let d := Do req i in
    let resp := doResp d in
    let err := doErr d in
    let ok :=
      match err, resp with
      | None, Some r => StatusCode r <? 500
      | _, _ => false
      end in
    if ok then ([EvDo i], (resp, err))
    else
      let closing := match resp with Some _ => [EvClose i] | None => [] end in
      let resp := option_map Close resp in
      if i =? maxRetries c then (EvDo i :: closing, (resp, err))
      else
        let '(evs, vars') := retryLoop c req n' (i + 1) (resp, err) in
        (EvDo i :: closing ++ EvSleep (backoff i) :: evs, vars')
  end.

(** The request that [makeRequest] sends: [http.NewRequestWithContext] and
    the three headers. *)
Definition newRequest (c : Client) (method endpoint : string)
    (reqBody : option string) : Request :=
  {| Method := method;
     URL := baseURL c +:+ endpoint;
     ReqBody := reqBody;
     Header := [("Authorization", "Bearer " +:+ apiKey c);
                ("Content-Type", "application/json");
                ("User-Agent", "ai-wrapper/1.0")] |}.

(** The serialized body, when there is one. *)
Definition marshalBody (body : option openAIChatRequest)
    : option string + error :=
  match body with
  | None => inl None
  | Some b =>
    match jsonMarshal b with
    | inl js => inl (Some js)
    | inr e => inr e
    end
  end.

Definition makeRequest (c : Client) (method endpoint : string)
    (body : option openAIChatRequest) : list event * result Response :=
  match marshalBody body with
  | inr e => ([], Err (ErrMarshal e))
  | inl reqBody =>
    match newRequestErr method (baseURL c +:+ endpoint) with
    | Some e => ([], Err (ErrCreateRequest e))
    | None =>
      let req := newRequest c method endpoint reqBody in
      let '(evs, (resp, err)) :=
        retryLoop c req (Z.to_nat (maxRetries c + 1)) 0 (None, None) in
      match err with
      | Some e => (evs, Err (ErrRequestFailed (maxRetries c) e))
      | None =>
        match resp with
        | None => (evs, Panic)
        | Some r =>
          if StatusCode r >=? 400 then
            let body := ReadAll (RespBody r) in
            match unmarshalEnvelope body with
            | Some pe => (evs ++ [EvCloseFinal], Err (ErrVendor pe))
            | None =>
              (evs ++ [EvCloseFinal], Err (ErrAPI (StatusCode r) body))
            end
          else (evs, Ok r)
        end
      end
    end
  end.

End Transport.

(** ** Package openai: chat.go *)

Record streamDelta := mkDelta {
  d_Role : string;
  d_Content : string;
}.

Record streamChoice := mkChoice {
  Index : Z;
  Delta : streamDelta;
  FinishReason : option string;
}.

Record openAIStreamResponse := mkStreamResp {
  s_ID : string;
  s_Object : string;
  s_Created : Z;
  s_Model : string;
  Choices : list streamChoice;
}.

(** What [bufio.Scanner] shows its caller: the lines for which [Scan]
    returns true, then the value of [Err]. *)
Record Scanner := mkScanner {
  tokens : list string;
  scanErr : option error;
}.

Definition ErrTooLong : error := ErrExternal "bufio.Scanner: token too long".
Definition ErrBodyReadAfterClose : error :=
  ErrExternal "http: read on closed response body".

(** [bufio.MaxScanTokenSize] *)
Definition MaxScanTokenSize : N := 65536.

(** [dropCR] of bufio: a line loses one trailing carriage return. *)
Fixpoint dropCR (line : string) : string :=
  match line with
  | EmptyString => EmptyString
  | String c EmptyString =>
    if Ascii.eqb c "013"%char then EmptyString else line
  | String c rest => String c (dropCR rest)
  end.

(** [bufio.ScanLines] over the bytes of a body. [cur] is the current line so
    far, in reverse, and [n] its length: a line that fills the buffer without
    a newline while input remains stops the scanner with [ErrTooLong]; a
    last line without newline is still a line, also when it fills the buffer
    exactly and the end of the input came with its last bytes
    ([withEnd]). The result is the lines and whether the scanner stopped on
    a line too long. *)
Fixpoint scanLines (withEnd : bool) (bytes : string) (cur : string) (n : N)
    : list string * bool :=
  match bytes with
  | EmptyString =>
    if (MaxScanTokenSize <? n)%N
       || ((MaxScanTokenSize =? n)%N && negb withEnd)
    then ([], true)
    else
      (match cur with
       | EmptyString => []
       | _ => [dropCR (String.rev cur)]
       end, false)
  | String c rest =>
    if (MaxScanTokenSize <=? n)%N then ([], true)
    else if Ascii.eqb c "010"%char then
      let '(ls, long) := scanLines withEnd rest EmptyString 0 in
      (dropCR (String.rev cur) :: ls, long)
    else scanLines withEnd rest (String c cur) (n + 1)
  end.

(** [bufio.NewScanner(resp.Body)], run to the end. *)
Definition NewScanner (b : Body) : Scanner :=
  if closed b then {| tokens := []; scanErr := Some ErrBodyReadAfterClose |}
  else
    let '(ls, long) := scanLines (endWithData b) (data b) EmptyString 0 in
    {| tokens := ls;
       scanErr := if long then Some ErrTooLong else readErr b |}.

(** What the goroutine of [ChatStream] did when it ends: the chunks it sent
    on [responseChan], in order; whether it left by a [return] inside the
    loop; the last value of [responseID]; how many lines it took from the
    scanner. *)
Record decoded := mkDecoded {
  sent : list ai.StreamResponse;
  returned : bool;
  responseID : string;
  reads : nat;
}.

(** [responseChan <- chunk], before what follows. *)
Definition send (c : ai.StreamResponse) (d : decoded) : decoded :=
  {| sent := c :: sent d;
     returned := returned d;
     responseID := responseID d;
     reads := reads d |}.

(** The goroutine leaves by [return] with the variables as they are. *)
Definition stop (id : string) (n : nat) : decoded :=
  {| sent := []; returned := true; responseID := id; reads := n |}.

Section Decoder.

(** [json.Unmarshal([]byte(data), &streamResp)] *)
Variable unmarshalStream : string -> openAIStreamResponse + error.

(** [for scanner.Scan() { line := scanner.Text(); ... }] over the lines that
    remain, with the current [responseID] and the count of lines taken. *)
Fixpoint scanLoop (lines : list string) (id : string) (n : nat) : decoded :=
  match lines with
  | [] => {| sent := []; returned := false; responseID := id; reads := n |}
  | line :: rest =>
    let n := S n in
    if String.eqb line "" || HasPrefix line ":" then scanLoop rest id n
    else if HasPrefix line "data: " then
      let data := TrimPrefix line "data: " in
      if String.eqb data "[DONE]" then
        send {| ai.ID := id; ai.Content := ""; ai.Done := true;
                ai.Error := None |} (stop id n)
      else
        match unmarshalStream data with
        | inr err =>
          send {| ai.ID := ""; ai.Content := ""; ai.Done := false;
                  ai.Error := Some (ErrStreamParse err) |} (stop id n)
        | inl streamResp =>
          let id := s_ID streamResp in
          match Choices streamResp with
          | choice :: _ =>
            let content := d_Content (Delta choice) in
            let done :=
              match FinishReason choice with
              | Some _ => true
              | None => false
              end in
            send {| ai.ID := s_ID streamResp; ai.Content := content;
                    ai.Done := done; ai.Error := None |}
                 (if done then stop id n else scanLoop rest id n)
          | [] => scanLoop rest id n
          end
        end
    else scanLoop rest id n
  end.

(** The goroutine of [ChatStream]: the loop, then the check of
    [scanner.Err()] when the loop ended by itself. *)
Definition streamGoroutine (sc : Scanner) : decoded :=
  let d := scanLoop (tokens sc) "" 0 in
  if returned d then d
  else
    match scanErr sc with
    | Some err =>
      {| sent := sent d ++
                 [{| ai.ID := ""; ai.Content := ""; ai.Done := false;
                     ai.Error := Some (ErrStreamScan err) |}];
         returned := returned d;
         responseID := responseID d;
         reads := reads d |}
    | None => d
    end.

(** The chunks that the channel of a streaming call delivers for a body. *)
Definition decodeBody (b : Body) : list ai.StreamResponse :=
  sent (streamGoroutine (NewScanner b)).

Variable jsonMarshal : openAIChatRequest -> string + error.
Variable newRequestErr : string -> string -> option error.
Variable Do : Request -> Z -> DoResult.
Variable unmarshalEnvelope : string -> option ProviderError.

Definition convertRequest (req : ai.ChatRequest) : openAIChatRequest :=
  {| r_Model :=
       if String.eqb (ai.Model req) "" then "gpt-3.5-turbo" else ai.Model req;
     r_Messages :=
       map (fun msg => {| m_Role := ai.Role msg;
                          m_Content := ai.msg_Content msg |})
           (ai.Messages req);
     r_MaxTokens := ai.MaxTokens req;
     r_Temperature := ai.Temperature req;
     r_Stream := true |}.

(** [func (c *Client) ChatStream]: the events of the request, and the
    chunks of the channel it returns. *)
Definition ChatStream (c : Client) (req : ai.ChatRequest)
    : list event * result (list ai.StreamResponse) :=
  let '(evs, r) :=
    makeRequest jsonMarshal newRequestErr Do unmarshalEnvelope
                c "POST" "/chat/completions" (Some (convertRequest req)) in
  match r with
  | Err e => (evs, Err e)
  | Panic => (evs, Panic)
  | Ok resp => (evs, Ok (decodeBody (RespBody resp)))
  end.

End Decoder.

(** ** Package openai: the list of models *)

Record openAIModel := mkOpenAIModel {
  Id : string;
  mo_Object : string;
  mo_Created : Z;
  Owned : string;
}.

Record openAIModelResponse := mkModelResponse {
  mr_Object : string;
  Models : list openAIModel;
}.

(** A run of [GetAvailableModels]: the events of the request, the response
    that [fmt.Print] wrote to the standard output, whether the deferred
    [resp.Body.Close()] ran, and the result. *)
Record modelsRun := mkModelsRun {
  requestEvents : list event;
  printed : option Response;
  bodyClosed : bool;
  models : result (list string);
}.

Section Models.

Variable jsonMarshal : openAIChatRequest -> string + error.
Variable newRequestErr : string -> string -> option error.
Variable Do : Request -> Z -> DoResult.
Variable unmarshalEnvelope : string -> option ProviderError.

(** [json.NewDecoder(resp.Body).Decode(&openAIResp)] *)
Variable decodeModels : Body -> openAIModelResponse + error.

Definition GetAvailableModels (c : Client) : modelsRun :=
  let '(evs, r) :=
    makeRequest jsonMarshal newRequestErr Do unmarshalEnvelope
                c "GET" "/models" None in
  match r with
  | Err e =>
    {| requestEvents := evs; printed := None; bodyClosed := false;
       models := Err e |}
  | Panic =>
    {| requestEvents := evs; printed := None; bodyClosed := false;
       models := Panic |}
  | Ok resp =>
    {| requestEvents := evs;
       printed := Some resp;
       bodyClosed := true;
       models :=
         match decodeModels (RespBody resp) with
         | inr e => Err (ErrDecode e)
         | inl openAIResp => Ok (map Id (Models openAIResp))
         end |}
  end.

End Models.

End openai.

(** ** Package cli: the chat model of the terminal *)

Module cli.

Section ChatModel.

(** The text area of the bubbles library: its state, its constructor as
    [NewChatModel] configures it, and the methods the model calls. *)
Variable textareaModel : Type.
Variable textareaCmd : Type.
Variable textareaNew : textareaModel.
Variable textareaValue : textareaModel -> string.
Variable textareaReset : textareaModel -> textareaModel.

Record ChatModel := mkChatModel {
  aiService : ai.Service;
  textarea : textareaModel;
  history : list string;
  messages : list ai.Message;
  err : option error;
}.

(** [tea.Msg] as [Update] tells its cases apart: a key, named by its
    [String()]; a [responseMsg]; a value that is an error; anything else. *)
Inductive msg : Type :=
| KeyMsg (key : string)
| responseMsg (reply : string)
| errMsg (e : error)
| otherMsg.

(** [tea.Cmd] as [Update] returns it. *)
Inductive cmd : Type :=
| cmdNil
| cmdQuit
| cmdAskAI (m : ChatModel)
| cmdTextarea (c : textareaCmd).

Variable textareaUpdate : textareaModel -> msg -> textareaModel * textareaCmd.

(** [strings.TrimSpace], and the text that [%v] prints for an error. *)
Variable TrimSpace : string -> string.
Variable errorText : error -> string.

Definition NewChatModel (aiService : ai.Service) : ChatModel :=
  {| aiService := aiService;
     textarea := textareaNew;
     history := ["Welcome to AI Chat!"];
     messages := [{| ai.Role := "system";
                     ai.msg_Content := "You are a helpful assistant." |}];
     err := None |}.

(** The last statements of [Update]: the message goes to the text area. *)
Definition forward (m : ChatModel) (msg0 : msg) : ChatModel * cmd :=
  let '(ta, c) := textareaUpdate (textarea m) msg0 in
  ({| aiService := aiService m;
      textarea := ta;
      history := history m;
      messages := messages m;
      err := err m |},
   cmdTextarea c).

Definition Update (m : ChatModel) (msg0 : msg) : ChatModel * cmd :=
  match msg0 with
  | KeyMsg key =>
    if String.eqb key "ctrl+c" || String.eqb key "esc" then (m, cmdQuit)
    else if String.eqb key "enter" then
      let question := TrimSpace (textareaValue (textarea m)) in
      if negb (String.eqb question "") then
        let m' :=
          {| aiService := aiService m;
             textarea := textareaReset (textarea m);
             history := history m ++ ["You: " +:+ question];
             messages := messages m ++
                         [{| ai.Role := "user"; ai.msg_Content := question |}];
             err := err m |} in
        (m', cmdAskAI m')
      else forward m msg0
    else forward m msg0
  | responseMsg reply =>
    ({| aiService := aiService m;
        textarea := textarea m;
        history := history m ++ ["AI: " +:+ reply];
        messages := messages m ++
                    [{| ai.Role := "assistant"; ai.msg_Content := reply |}];
        err := err m |},
     cmdNil)
  | errMsg e =>
    ({| aiService := aiService m;
        textarea := textarea m;
        history := history m ++ ["Error: " +:+ errorText e];
        messages := messages m;
        err := Some e |},
     cmdNil)
  | otherMsg => forward m msg0
  end.

(** The loop of [askAI] over the chunks of the stream, with the reply built
    so far: an error chunk ends it with that error, a done chunk or the end
    of the stream with the reply. What the loop appends to its own copy of
    the model is not seen by anyone. *)
Fixpoint drain (stream : list ai.StreamResponse) (aiReply : string) : msg :=
  match stream with
  | [] => responseMsg aiReply
  | chunk :: rest =>
    match ai.Error chunk with
    | Some e => errMsg e
    | None =>
      if ai.Done chunk then responseMsg aiReply
      else drain rest (aiReply +:+ ai.Content chunk)
    end
  end.

(** The request of [askAI]. *)
Definition askRequest (m : ChatModel) : ai.ChatRequest :=
  {| ai.Messages := messages m;
     ai.Model := "gpt-5";
     ai.MaxTokens := 0;
     ai.Temperature := 0%float;
     ai.Stream := false |}.

(** The command that [askAI] returns, when it is run: the events of the
    call, and the message it yields unless the call panics. *)
Definition askAI (m : ChatModel) : list event * option msg :=
  let '(evs, r) := ai.ServiceChatStream (aiService m) "openai" (askRequest m) in
  match r with
  | Err e => (evs, Some (errMsg e))
  | Panic => (evs, None)
  | Ok (stream, _) => (evs, Some (drain stream ""))
  end.

(** The model after a sequence of messages. *)
Definition runUpdates (m : ChatModel) (msgs : list msg) : ChatModel :=
  fold_left (fun m msg0 => fst (Update m msg0)) msgs m.

End ChatModel.

Arguments aiService {textareaModel} _.
Arguments textarea {textareaModel} _.
Arguments history {textareaModel} _.
Arguments messages {textareaModel} _.
Arguments err {textareaModel} _.
Arguments NewChatModel {textareaModel} _ _.
Arguments forward {textareaModel textareaCmd} _ _ _.
Arguments Update {textareaModel textareaCmd} _ _ _ _ _ _ _.
Arguments askRequest {textareaModel} _.
Arguments askAI {textareaModel} _.
Arguments runUpdates {textareaModel textareaCmd} _ _ _ _ _ _ _.

End cli.

(** * Specification vocabulary *)

Import ai openai.

(** The chunks [cs] were sent before what [d] records. *)
Definition prepend (cs : list StreamResponse) (d : decoded) : decoded :=
  {| sent := cs ++ sent d;
     returned := returned d;
     responseID := responseID d;
     reads := reads d |}.

(** The chunk sent at [data: [DONE]]. *)
Definition doneChunk (id : string) : StreamResponse :=
  {| ID := id; Content := ""; Done := true; Error := None |}.

(** A chunk that carries an error and nothing else. *)
Definition errorChunk (e : error) : StreamResponse :=
  {| ID := ""; Content := ""; Done := false; Error := Some e |}.

(** A delivered sequence as the data model wants it: one terminal chunk,
    which is the last one and is either done or failed, not both. *)
Definition wellTerminated (cs : list StreamResponse) : Prop :=
  exists pre c,
    cs = pre ++ [c] /\
    Forall (fun x => terminal x = false) pre /\
    terminal c = true /\
    ~ (Done c = true /\ hasError c = true).

Definition nonTerminal (c : StreamResponse) : Prop := terminal c = false.

(** The line of a data frame with the given payload. *)
Definition dataLine (payload : string) : string := "data: " +:+ payload.

(** The vendor frame that a line carries, if it is a data frame that is not
    the end marker and that decodes. *)
Definition frameOf (um : string -> openAIStreamResponse + error)
    (line : string) : option openAIStreamResponse :=
  if String.eqb line "" || HasPrefix line ":" then None
  else if HasPrefix line "data: " then
    let data := TrimPrefix line "data: " in
    if String.eqb data "[DONE]" then None
    else match um data with inl r => Some r | inr _ => None end
  else None.

(** A data frame whose payload does not decode. *)
Definition malformed (um : string -> openAIStreamResponse + error)
    (line : string) : bool :=
  negb (String.eqb line "" || HasPrefix line ":") &&
  HasPrefix line "data: " &&
  negb (String.eqb (TrimPrefix line "data: ") "[DONE]") &&
  match um (TrimPrefix line "data: ") with inl _ => false | inr _ => true end.

(** The response id seen last in [lines], [id] when they carry no frame. *)
Fixpoint lastSeenId (um : string -> openAIStreamResponse + error)
    (lines : list string) (id : string) : string :=
  match lines with
  | [] => id
  | line :: rest =>
    lastSeenId um rest
      (match frameOf um line with Some r => s_ID r | None => id end)
  end.

(** ** Sample inputs *)

Definition quote : string := String "034"%char EmptyString.
Definition newline : string := String "010"%char EmptyString.
Definition jstr (s : string) : string := quote +:+ s +:+ quote.

(** The frame of the scenario: id x, delta content Hi, finish_reason null. *)
Definition payloadHi : string :=
  "{" +:+ jstr "id" +:+ ":" +:+ jstr "x" +:+ "," +:+ jstr "choices" +:+
  ":[{" +:+ jstr "delta" +:+ ":{" +:+ jstr "content" +:+ ":" +:+ jstr "Hi" +:+
  "}," +:+ jstr "finish_reason" +:+ ":null}]}".

Definition frameHi : openAIStreamResponse :=
  {| s_ID := "x"; s_Object := ""; s_Created := 0; s_Model := "";
     Choices := [{| Index := 0;
                    Delta := {| d_Role := ""; d_Content := "Hi" |};
                    FinishReason := None |}] |}.

(** A frame with id y and an empty list of choices. *)
Definition payloadNoChoices : string :=
  "{" +:+ jstr "id" +:+ ":" +:+ jstr "y" +:+ "," +:+ jstr "choices" +:+ ":[]}".

Definition frameNoChoices : openAIStreamResponse :=
  {| s_ID := "y"; s_Object := ""; s_Created := 0; s_Model := "";
     Choices := [] |}.

(** A decoder that knows the two frames above and rejects everything else,
    as [json.Unmarshal] rejects text that is not JSON. *)
Definition sampleUnmarshal (s : string) : openAIStreamResponse + error :=
  if String.eqb s payloadHi then inl frameHi
  else if String.eqb s payloadNoChoices then inl frameNoChoices
  else inr (ErrExternal "invalid character").

(** The body of the scenario: the frame, a blank line, the end marker and a
    blank line. *)
Definition scenarioBody : Body :=
  {| data := dataLine payloadHi +:+ newline +:+ newline +:+
             "data: [DONE]" +:+ newline +:+ newline;
     readErr := None;
     endWithData := false;
     closed := false |}.

(** A body cut after its first frame, the connection closing cleanly. *)
Definition truncatedBody : Body :=
  {| data := dataLine payloadHi +:+ newline +:+ newline;
     readErr := None;
     endWithData := false;
     closed := false |}.

(** A body with a keep-alive comment and nothing else. *)
Definition keepAliveBody : Body :=
  {| data := ": keep-alive" +:+ newline +:+ newline;
     readErr := None;
     endWithData := false;
     closed := false |}.

(** ** Vocabulary of the transport *)

(** An outcome of [Do] after which the loop goes on: the call failed, or the
    status is a server error. *)
Definition retryable (d : DoResult) : bool :=
  match d with
  | DoErr _ _ => true
  | DoOk r => 500 <=? StatusCode r
  end.

Definition isDo (e : event) : bool :=
  match e with EvDo _ => true | _ => false end.

Definition isSleep (e : event) : bool :=
  match e with EvSleep _ => true | _ => false end.

(** How many times the request was sent. *)
Definition attempts (evs : list event) : nat :=
  length (List.filter isDo evs).

(** The attempts and the sleeps of a run, in order. *)
Definition timeline (evs : list event) : list event :=
  List.filter (fun e => isDo e || isSleep e) evs.

(** [k] attempts from index [i] on, with a sleep of [delay j] between
    attempt [j] and attempt [j + 1]. *)
Fixpoint scheduleWith (delay : Z -> Z) (k : nat) (i : Z) : list event :=
  match k with
  | O => []
  | S k' =>
    EvDo i ::
    match k' with
    | O => []
    | S _ => EvSleep (delay i) :: scheduleWith delay k' (i + 1)
    end
  end.

(** The linear schedule: [i + 1] seconds after attempt [i]. *)
Definition schedule (k : nat) (i : Z) : list event :=
  scheduleWith (fun j => (j + 1) * Second) k i.

(** A vendor that answers every attempt with status 500 and a plain text. *)
Definition always500 (_ : Request) (_ : Z) : DoResult :=
  DoOk {| StatusCode := 500;
          RespBody := {| data := "upstream unavailable";
                         readErr := None;
                         endWithData := false;
                         closed := false |} |}.

(** A vendor that fails twice, the network first and the server next, and
    then rejects the request with status 429. *)
Definition flakyVendor (_ : Request) (i : Z) : DoResult :=
  if i =? 0 then DoErr (ErrExternal "connection refused") None
  else if i =? 1 then
    DoOk {| StatusCode := 503;
            RespBody := {| data := ""; readErr := None; endWithData := false; closed := false |} |}
  else
    DoOk {| StatusCode := 429;
            RespBody := {| data := "slow down";
                           readErr := None;
                           endWithData := false;
                           closed := false |} |}.

(** A decoder of the error envelope that accepts the empty object and
    rejects text that is not JSON, the empty text included. *)
Definition sampleEnvelope (s : string) : option ProviderError :=
  if String.eqb s "{}"
  then Some {| e_Code := ""; e_Message := ""; e_Type := "" |}
  else None.

Definition sampleMarshal (_ : openAIChatRequest) : string + error := inl "{}".

Definition sampleNewRequestErr (_ _ : string) : option error := None.

Definition sampleClient (retries : Z) : Client :=
  {| apiKey := "sk-test";
     baseURL := DefaultBaseURL;
     httpClient_Timeout := DefaultTimeout;
     maxRetries := retries |}.

(** ** Vocabulary of the service *)

(** The chunks of a sequence up to its first terminal chunk, included. *)
Fixpoint uptoTerminal (cs : list StreamResponse) : list StreamResponse :=
  match cs with
  | [] => []
  | c :: rest => if terminal c then [c] else c :: uptoTerminal rest
  end.

(** The service after the registrations of [regs], in order. *)
Definition registerAll (regs : list (string * Provider)) (s : Service)
    : Service :=
  fold_left (fun s reg => snd (RegisterProvider s (fst reg) (snd reg))) regs s.

(** A provider whose stream goes on after its done chunk. *)
Definition chattyStream : list StreamResponse :=
  [{| ID := "a"; Content := ""; Done := true; Error := None |};
   {| ID := "a"; Content := "late"; Done := false; Error := None |}].

Definition chattyProvider : Provider :=
  {| ai.Chat := fun _ => ([], Err (ErrExternal "not supported"));
     ai.ChatStream := fun _ => ([], Ok chattyStream);
     ai.GetName := "chatty";
     ai.GetAvailableModels := ([], Ok []) |}.

Definition sampleRequest : ChatRequest :=
  {| Messages := [{| Role := "user"; msg_Content := "hi" |}];
     Model := "";
     MaxTokens := 0;
     Temperature := 0%float;
     Stream := false |}.

(** ** Vocabulary of a whole run of the transport *)

(** The events of [k] iterations of the loop from index [i]: each attempt,
    the closing of its response when it is retried and has one, and the
    sleep before the next attempt. *)
Fixpoint loopTrace (Do : Request -> Z -> DoResult) (req : Request)
    (k : nat) (i : Z) : list event :=
  match k with
  | O => []
  | S k' =>
    EvDo i ::
    (if retryable (Do req i)
     then match doResp (Do req i) with Some _ => [EvClose i] | None => [] end
     else []) ++
    match k' with
    | O => []
    | S _ => EvSleep (backoff i) :: loopTrace Do req k' (i + 1)
    end
  end.

(** The variables [resp] and [err] after the loop left on outcome [d]. *)
Definition finalVars (d : DoResult) : loopVars :=
  if retryable d then (option_map Close (doResp d), doErr d)
  else (doResp d, doErr d).

(** The time slept in a run, in nanoseconds. *)
Fixpoint totalSleep (evs : list event) : Z :=
  match evs with
  | [] => 0
  | EvSleep d :: rest => d + totalSleep rest
  | _ :: rest => totalSleep rest
  end.

Definition isClose (e : event) : bool :=
  match e with EvClose _ => true | _ => false end.

(** ** Vocabulary of lines and bytes *)

(** The lines that the decoder looks into. *)
Definition isDataLine (line : string) : bool := HasPrefix line "data: ".

(** A text without line feed. *)
Fixpoint noNewline (s : string) : bool :=
  match s with
  | EmptyString => true
  | String ch rest => negb (Ascii.eqb ch "010"%char) && noNewline rest
  end.

(** The bytes of lines that each end with [ending]. *)
Fixpoint joinLines (ending : string) (lines : list string) : string :=
  match lines with
  | [] => EmptyString
  | l :: rest => l +:+ ending +:+ joinLines ending rest
  end.

Definition LF : string := String "010"%char EmptyString.
Definition CRLF : string := String "013"%char LF.

(** A line that the scanner gives back as it is: no line feed inside, no
    carriage return at its end, and short enough for the buffer with its
    line ending. *)
Definition plainLine (l : string) : Prop :=
  noNewline l = true /\ dropCR l = l /\
  (N.of_nat (String.length l) < MaxScanTokenSize - 1)%N.

(** A line of 65536 letters. *)
Definition longLine : string := N.iter 65536 (String "a"%char) EmptyString.

(** A frame with id z whose first choice ends the answer with the text
    bye. *)
Definition payloadStop : string :=
  "{" +:+ jstr "id" +:+ ":" +:+ jstr "z" +:+ "," +:+ jstr "choices" +:+
  ":[{" +:+ jstr "delta" +:+ ":{" +:+ jstr "content" +:+ ":" +:+ jstr "bye" +:+
  "}," +:+ jstr "finish_reason" +:+ ":" +:+ jstr "stop" +:+ "}]}".

Definition frameStop : openAIStreamResponse :=
  {| s_ID := "z"; s_Object := ""; s_Created := 0; s_Model := "";
     Choices := [{| Index := 0;
                    Delta := {| d_Role := ""; d_Content := "bye" |};
                    FinishReason := Some "stop" |}] |}.

(** A decoder that knows the three sample frames. *)
Definition sampleUnmarshal3 (s : string) : openAIStreamResponse + error :=
  if String.eqb s payloadStop then inl frameStop else sampleUnmarshal s.

(** Two runs of the loop agree on what the consumer and the rest of the
    goroutine can see. *)
Definition sameOutcome (d1 d2 : decoded) : Prop :=
  sent d1 = sent d2 /\ returned d1 = returned d2 /\
  responseID d1 = responseID d2.

(** ** Vocabulary of the registry and of the consumer *)

(** The provider that the last registration of [name] in [regs] gave. *)
Fixpoint lastRegistered (name : string) (regs : list (string * Provider))
    : option Provider :=
  match regs with
  | [] => None
  | reg :: rest =>
    match lastRegistered name rest with
    | Some p => Some p
    | None => if String.eqb (fst reg) name then Some (snd reg) else None
    end
  end.

(** The texts of chunks, one after the other. *)
Fixpoint replyOf (cs : list StreamResponse) : string :=
  match cs with
  | [] => EmptyString
  | c :: rest => Content c +:+ replyOf rest
  end.

Definition isLog (e : event) : bool :=
  match e with EvLog _ _ => true | _ => false end.

(** A provider that answers every chat with the text pong. *)
Definition pongProvider : Provider :=
  {| ai.Chat := fun _ =>
       ([], Ok {| resp_ID := "1"; resp_Model := "m"; resp_Content := "pong";
                  resp_Usage := {| PromptTokens := 1; CompletionTokens := 1;
                                   TotalTokens := 2 |};
                  Created := 0 |});
     ai.ChatStream := fun _ => ([], Ok chattyStream);
     ai.GetName := "pong";
     ai.GetAvailableModels := ([], Ok ["m"]) |}.

(** A message that the terminal adds to the conversation: what the user
    typed, which is not empty, or a reply. *)
Definition turnMessage (x : Message) : Prop :=
  (Role x = "user" /\ msg_Content x <> "") \/ Role x = "assistant".

(** A vendor that answers with the body of the scenario, and a provider
    whose stream is the one of the client against that vendor. *)
Definition scenarioVendor (_ : Request) (_ : Z) : DoResult :=
  DoOk {| StatusCode := 200; RespBody := scenarioBody |}.

Definition clientProvider : Provider :=
  {| ai.Chat := fun _ => ([], Err (ErrExternal "not supported"));
     ai.ChatStream :=
       openai.ChatStream sampleUnmarshal sampleMarshal sampleNewRequestErr
                         scenarioVendor sampleEnvelope (sampleClient 3);
     ai.GetName := "openai";
     ai.GetAvailableModels := ([], Ok []) |}.

(** ** Vocabulary of whole streams *)




(** The data model's rule on a sequence: nothing comes after a terminal
    chunk. *)
Definition noChunkAfterTerminal (cs : list StreamResponse) : Prop :=
  forall pre c rest, cs = pre ++ c :: rest -> terminal c = true -> rest = [].

(** * Properties of the streaming decoder *)

Section DecoderFacts.

Variable um : string -> openAIStreamResponse + error.

Lemma prepend_nil d : prepend [] d = d.
Proof. destruct d; reflexivity. Qed.

(** Reading [pre] and then [rest] is reading [pre], and going on with
    [rest] from the state reached unless the goroutine has returned. *)
Lemma scanLoop_app pre rest id n :
  scanLoop um (pre ++ rest) id n =
  let d := scanLoop um pre id n in
  if returned d then d
  else prepend (sent d) (scanLoop um rest (responseID d) (reads d)).
Proof.
  revert id n. induction pre as [|line pre IH]; intros id n; cbn [app scanLoop].
  - cbn. now rewrite prepend_nil.
  - destruct (String.eqb line "" || HasPrefix line ":"); [apply IH|].
    destruct (HasPrefix line "data: "); [|apply IH].
    destruct (String.eqb (TrimPrefix line "data: ") "[DONE]"); [reflexivity|].
    destruct (um (TrimPrefix line "data: ")) as [r|e]; [|reflexivity].
    destruct (Choices r) as [|ch chs]; [apply IH|].
    destruct (FinishReason ch); [reflexivity|].
    rewrite IH. cbn zeta.
    destruct (scanLoop um pre (s_ID r) (S n)) as [cs [|] rid k]; reflexivity.
Qed.

(** The loop counts every line it takes; when it ends by itself it has
    taken them all. *)
Lemma scanLoop_reads lines id n :
  let d := scanLoop um lines id n in
  (n <= reads d <= n + length lines)%nat /\
  (returned d = false -> reads d = (n + length lines)%nat).
Proof.
  revert id n. induction lines as [|line lines IH]; intros id n;
    cbn [scanLoop length].
  - cbn. lia.
  - assert (Hrec : forall i,
      let d := scanLoop um lines i (S n) in
      (n <= reads d <= n + S (length lines))%nat /\
      (returned d = false -> reads d = (n + S (length lines))%nat)).
    { intros i. destruct (IH i (S n)) as [[A B] C].
      repeat split; [lia | lia | intros H; specialize (C H); lia]. }
    assert (Hstop : forall c i,
      let d := send c (stop i (S n)) in
      (n <= reads d <= n + S (length lines))%nat /\
      (returned d = false -> reads d = (n + S (length lines))%nat)).
    { intros c i. cbn. repeat split; [lia | lia | discriminate]. }
    destruct (String.eqb line "" || HasPrefix line ":"); [apply Hrec|].
    destruct (HasPrefix line "data: "); [|apply Hrec].
    destruct (String.eqb (TrimPrefix line "data: ") "[DONE]"); [apply Hstop|].
    destruct (um (TrimPrefix line "data: ")) as [r|e]; [|apply Hstop].
    destruct (Choices r) as [|ch chs]; [apply Hrec|].
    destruct (FinishReason ch); [apply Hstop|].
    apply (Hrec (s_ID r)).
Qed.

(** What the loop sends: chunks that are not terminal, and then, exactly
    when it leaves by [return], one terminal chunk, done or failed. *)
Lemma scanLoop_sent lines id n :
  let d := scanLoop um lines id n in
  if returned d then wellTerminated (sent d)
  else Forall (fun x => terminal x = false) (sent d).
Proof.
  revert id n. induction lines as [|line lines IH]; intros id n;
    cbn [scanLoop].
  - cbn. constructor.
  - pose proof (fun i => IH i (S n)) as IH'. cbn zeta in IH'.
    destruct (String.eqb line "" || HasPrefix line ":"); [apply IH'|].
    destruct (HasPrefix line "data: "); [|apply IH'].
    destruct (String.eqb (TrimPrefix line "data: ") "[DONE]").
    { cbn. exists [], (doneChunk id). repeat split; auto.
      cbn. intros [_ H]; discriminate. }
    destruct (um (TrimPrefix line "data: ")) as [r|e].
    2:{ cbn. exists [], (errorChunk (ErrStreamParse e)). repeat split; auto.
        cbn. intros [H _]; discriminate. }
    destruct (Choices r) as [|ch chs]; [apply IH'|].
    destruct (FinishReason ch).
    { cbn. eexists [], _. repeat split; auto.
      cbn. intros [_ H]; discriminate. }
    specialize (IH' (s_ID r)). cbn.
    destruct (returned (scanLoop um lines (s_ID r) (S n))).
    + destruct IH' as (pre & c & -> & Hpre & Hc & Hnb).
      exists ({| ID := s_ID r; Content := d_Content (Delta ch);
                 Done := false; Error := None |} :: pre), c.
      repeat split; auto.
    + constructor; auto.
Qed.

End DecoderFacts.

(** ** Lines of data frames *)

Lemma substring_whole s : substring 0 (String.length s) s = s.
Proof. induction s as [|c s IH]; cbn; [reflexivity | now rewrite IH]. Qed.

Lemma dataLine_not_skipped payload :
  String.eqb (dataLine payload) "" || HasPrefix (dataLine payload) ":" = false.
Proof. reflexivity. Qed.

Lemma dataLine_prefix payload : HasPrefix (dataLine payload) "data: " = true.
Proof. destruct payload; reflexivity. Qed.

Lemma dataLine_payload payload : TrimPrefix (dataLine payload) "data: " = payload.
Proof.
  unfold TrimPrefix. rewrite dataLine_prefix. unfold dataLine. simpl.
  rewrite ?Nat.sub_0_r. apply substring_whole.
Qed.

(** One step of the loop on a data frame that is not the end marker. *)
Lemma scanLoop_dataLine um payload rest id n :
  payload <> "[DONE]" ->
  scanLoop um (dataLine payload :: rest) id n =
  match um payload with
  | inr err => send (errorChunk (ErrStreamParse err)) (stop id (S n))
  | inl r =>
    match Choices r with
    | choice :: _ =>
      let done := match FinishReason choice with
                  | Some _ => true | None => false end in
      send {| ID := s_ID r; Content := d_Content (Delta choice);
              Done := done; Error := None |}
           (if done then stop (s_ID r) (S n) else scanLoop um rest (s_ID r) (S n))
    | [] => scanLoop um rest (s_ID r) (S n)
    end
  end.
Proof.
  intros Hne. cbn [scanLoop].
  rewrite dataLine_not_skipped, dataLine_prefix, dataLine_payload.
  destruct (String.eqb_spec payload "[DONE]") as [->|_]; [congruence|].
  reflexivity.
Qed.

Lemma scanLoop_done um rest id n :
  scanLoop um ("data: [DONE]" :: rest) id n = send (doneChunk id) (stop id (S n)).
Proof. reflexivity. Qed.

(** A loop that sent no terminal chunk has not returned. *)
Lemma scanLoop_quiet_running um lines id n :
  Forall nonTerminal (sent (scanLoop um lines id n)) ->
  returned (scanLoop um lines id n) = false.
Proof.
  intros Hall. pose proof (scanLoop_sent um lines id n) as H. cbn zeta in H.
  destruct (returned (scanLoop um lines id n)); [|reflexivity].
  destruct H as (pre & c & Heq & _ & Hc & _).
  rewrite Heq in Hall. apply Forall_app in Hall as [_ Hall].
  inversion Hall as [|? ? Hc' _]; subst. unfold nonTerminal in Hc'. congruence.
Qed.

Lemma wellTerminated_not_quiet cs :
  wellTerminated cs -> ~ Forall nonTerminal cs.
Proof.
  intros (pre & c & -> & _ & Hc & _) Hall.
  apply Forall_app in Hall as [_ Hall].
  inversion Hall as [|? ? Hc' _]; subst. unfold nonTerminal in Hc'. congruence.
Qed.

(** ** Termination of a chunk sequence *)

(** What the goroutine sends ends with its only terminal chunk, or holds no
    terminal chunk. *)
Lemma streamGoroutine_sent um sc :
  wellTerminated (sent (streamGoroutine um sc)) \/
  Forall nonTerminal (sent (streamGoroutine um sc)).
Proof.
  unfold streamGoroutine.
  pose proof (scanLoop_sent um (tokens sc) "" 0) as Hsent. cbn zeta in Hsent.
  destruct (returned (scanLoop um (tokens sc) "" 0)); [now left|].
  destruct (scanErr sc) as [err|]; [left | now right].
  exists (sent (scanLoop um (tokens sc) "" 0)), (errorChunk (ErrStreamScan err)).
  cbn [sent]. repeat split; auto. cbn. intros [H _]; discriminate.
Qed.

(** C2, as the code has it: the chunks of a streaming call hold at most one
    terminal chunk, which is then the last chunk delivered and is either
    done or failed, never both. There is exactly one when the goroutine
    stops at an end marker, at a frame with a finish reason or at a
    malformed frame, or when the scanner reports an error; when the body
    ends cleanly without such a frame, the channel is closed after chunks
    none of which is terminal. *)
Theorem stream_terminal_chunk (um : string -> openAIStreamResponse + error)
    (sc : Scanner) :
  let loop := scanLoop um (tokens sc) "" 0 in
  let delivered := sent (streamGoroutine um sc) in
  (wellTerminated delivered /\
   (returned loop = true \/ exists err, scanErr sc = Some err)) \/
  (Forall nonTerminal delivered /\
   returned loop = false /\ scanErr sc = None).
Proof.
  cbn zeta. unfold streamGoroutine.
  pose proof (scanLoop_sent um (tokens sc) "" 0) as Hsent. cbn zeta in Hsent.
  destruct (returned (scanLoop um (tokens sc) "" 0)) eqn:Hret.
  - left. split; [exact Hsent | now left].
  - destruct (scanErr sc) as [err|] eqn:Herr.
    + left. split; [|right; now exists err]. cbn [sent].
      exists (sent (scanLoop um (tokens sc) "" 0)), (errorChunk (ErrStreamScan err)).
      repeat split; auto. cbn. intros [H _]; discriminate.
    + right. repeat split. exact Hsent.
Qed.

(** C2, as the specification states it, fails: a body cut cleanly after its
    first frame delivers one chunk, and that chunk is not terminal. *)
Lemma truncated_stream_not_terminated :
  decodeBody sampleUnmarshal truncatedBody =
    [{| ID := "x"; Content := "Hi"; Done := false; Error := None |}] /\
  ~ wellTerminated (decodeBody sampleUnmarshal truncatedBody).
Proof.
  assert (Heq : decodeBody sampleUnmarshal truncatedBody =
    [{| ID := "x"; Content := "Hi"; Done := false; Error := None |}])
    by (vm_compute; reflexivity).
  split; [exact Heq|]. rewrite Heq. intros H.
  apply wellTerminated_not_quiet in H. apply H.
  constructor; [reflexivity | constructor].
Qed.

(** C3, as the specification states it, fails: a body that ends cleanly
    before any terminal frame delivers no chunk at all, so no chunk reports
    the premature close. *)
Lemma clean_end_reports_nothing :
  decodeBody sampleUnmarshal keepAliveBody = [] /\
  ~ exists c, In c (decodeBody sampleUnmarshal keepAliveBody) /\
              terminal c = true.
Proof.
  assert (Heq : decodeBody sampleUnmarshal keepAliveBody = [])
    by (vm_compute; reflexivity).
  split; [exact Heq|]. rewrite Heq. intros (c & [] & _).
Qed.

(** ** Frames *)

(** C5: when the decoder reaches a data frame whose payload does not decode,
    it sends one chunk that carries the parse error, after the chunks of the
    frames before it, none of which is terminal, and stops: nothing is sent
    for the frame itself or after it, whatever follows in the body, and the
    frame is the last line taken from the scanner. *)
Theorem malformed_frame_ends_stream
    (um : string -> openAIStreamResponse + error)
    (pre post : list string) (payload : string) (e : error)
    (scErr : option error) :
  returned (scanLoop um pre "" 0) = false ->
  payload <> "[DONE]" ->
  um payload = inr e ->
  let d := streamGoroutine um
             {| tokens := pre ++ dataLine payload :: post;
                scanErr := scErr |} in
  sent d = sent (scanLoop um pre "" 0) ++ [errorChunk (ErrStreamParse e)] /\
  Forall nonTerminal (sent (scanLoop um pre "" 0)) /\
  returned d = true /\
  reads d = S (length pre).
Proof.
  intros Hrun Hne Hum. cbn zeta. unfold streamGoroutine. cbn [tokens scanErr].
  rewrite scanLoop_app. cbn zeta. rewrite Hrun.
  rewrite scanLoop_dataLine by exact Hne. rewrite Hum.
  pose proof (scanLoop_sent um pre "" 0) as Hsent. cbn zeta in Hsent.
  rewrite Hrun in Hsent.
  destruct (scanLoop_reads um pre "" 0) as [_ Hreads].
  specialize (Hreads Hrun). cbn in Hreads.
  cbn. rewrite Hreads. auto.
Qed.

Lemma malformed_frame_ends_stream_witness :
  let d := streamGoroutine sampleUnmarshal
             {| tokens := [dataLine payloadHi] ++
                          dataLine "{oops" :: [dataLine payloadHi];
                scanErr := None |} in
  sent d = sent (scanLoop sampleUnmarshal [dataLine payloadHi] "" 0) ++
           [errorChunk (ErrStreamParse (ErrExternal "invalid character"))] /\
  Forall nonTerminal (sent (scanLoop sampleUnmarshal [dataLine payloadHi] "" 0)) /\
  returned d = true /\
  reads d = S (length [dataLine payloadHi]).
Proof.
  apply (malformed_frame_ends_stream sampleUnmarshal [dataLine payloadHi]
           [dataLine payloadHi] "{oops" (ErrExternal "invalid character") None).
  - vm_compute; reflexivity.
  - discriminate.
  - vm_compute; reflexivity.
Defined.

(** C9: when the decoder reaches a data frame that decodes to a response
    with no choice, it sends nothing for it and goes on with the lines that
    follow, the frame's id being the current response id; so an end marker
    that comes next is delivered with that id. *)
Theorem empty_choices_frame_skipped
    (um : string -> openAIStreamResponse + error)
    (pre : list string) (payload : string) (r : openAIStreamResponse) :
  returned (scanLoop um pre "" 0) = false ->
  payload <> "[DONE]" ->
  um payload = inl r ->
  Choices r = [] ->
  (forall rest,
     scanLoop um (pre ++ dataLine payload :: rest) "" 0 =
     prepend (sent (scanLoop um pre "" 0))
             (scanLoop um rest (s_ID r) (S (length pre)))) /\
  (forall post scErr,
     sent (streamGoroutine um
             {| tokens := pre ++ dataLine payload :: "data: [DONE]" :: post;
                scanErr := scErr |}) =
     sent (scanLoop um pre "" 0) ++ [doneChunk (s_ID r)]).
Proof.
  intros Hrun Hne Hum Hch.
  assert (Hstep : forall rest,
     scanLoop um (pre ++ dataLine payload :: rest) "" 0 =
     prepend (sent (scanLoop um pre "" 0))
             (scanLoop um rest (s_ID r) (S (length pre)))).
  { intros rest. rewrite scanLoop_app. cbn zeta. rewrite Hrun.
    rewrite scanLoop_dataLine by exact Hne. rewrite Hum, Hch.
    destruct (scanLoop_reads um pre "" 0) as [_ Hreads].
    specialize (Hreads Hrun). cbn in Hreads. now rewrite Hreads. }
  split; [exact Hstep|]. intros post scErr.
  unfold streamGoroutine. cbn [tokens scanErr].
  rewrite Hstep, scanLoop_done. reflexivity.
Qed.

Lemma empty_choices_frame_skipped_witness :
  (forall rest,
     scanLoop sampleUnmarshal
       ([dataLine payloadHi] ++ dataLine payloadNoChoices :: rest) "" 0 =
     prepend (sent (scanLoop sampleUnmarshal [dataLine payloadHi] "" 0))
             (scanLoop sampleUnmarshal rest (s_ID frameNoChoices)
                       (S (length [dataLine payloadHi])))) /\
  (forall post scErr,
     sent (streamGoroutine sampleUnmarshal
             {| tokens := [dataLine payloadHi] ++
                          dataLine payloadNoChoices :: "data: [DONE]" :: post;
                scanErr := scErr |}) =
     sent (scanLoop sampleUnmarshal [dataLine payloadHi] "" 0) ++
     [doneChunk (s_ID frameNoChoices)]).
Proof.
  apply (empty_choices_frame_skipped sampleUnmarshal [dataLine payloadHi]
           payloadNoChoices frameNoChoices).
  - vm_compute; reflexivity.
  - discriminate.
  - vm_compute; reflexivity.
  - reflexivity.
Defined.

(** ** Streams that end with the end marker *)

(** The variable [responseID] holds the id of the last frame among the lines
    that the loop has taken. *)
Lemma scanLoop_responseID um lines id n :
  responseID (scanLoop um lines id n) =
  lastSeenId um (firstn (reads (scanLoop um lines id n) - n) lines) id.
Proof.
  revert id n. induction lines as [|line lines IH]; intros id n.
  - cbn. now rewrite firstn_nil.
  - assert (Hrec : forall i,
      i = match frameOf um line with Some r => s_ID r | None => id end ->
      responseID (scanLoop um lines i (S n)) =
      lastSeenId um
        (firstn (reads (scanLoop um lines i (S n)) - n) (line :: lines)) id).
    { intros i Hi. destruct (scanLoop_reads um lines i (S n)) as [[Hle _] _].
      replace (reads (scanLoop um lines i (S n)) - n)%nat
        with (S (reads (scanLoop um lines i (S n)) - S n))%nat by lia.
      cbn [firstn lastSeenId]. rewrite <- Hi. apply IH. }
    assert (Hstop : forall c i,
      i = match frameOf um line with Some r => s_ID r | None => id end ->
      responseID (send c (stop i (S n))) =
      lastSeenId um
        (firstn (reads (send c (stop i (S n))) - n) (line :: lines)) id).
    { intros c i Hi. cbn [send stop responseID reads].
      replace (S n - n)%nat with 1%nat by lia.
      cbn [firstn lastSeenId]. now rewrite <- Hi. }
    cbn [scanLoop]. unfold frameOf in Hrec, Hstop.
    destruct (String.eqb line "" || HasPrefix line ":"); [now apply Hrec|].
    destruct (HasPrefix line "data: "); [|now apply Hrec].
    cbn zeta in Hrec, Hstop.
    destruct (String.eqb (TrimPrefix line "data: ") "[DONE]");
      [now apply Hstop|].
    destruct (um (TrimPrefix line "data: ")) as [r|e]; [|now apply Hstop].
    destruct (Choices r) as [|ch chs]; [now apply Hrec|].
    destruct (FinishReason ch); [now apply Hstop|].
    cbn [send responseID reads]. now apply Hrec.
Qed.

(** A stream without malformed frame that holds the end marker makes the
    loop return after a chunk that is done and carries the current id. *)
Lemma scanLoop_reaches_done um lines id n :
  Forall (fun l => malformed um l = false) lines ->
  In "data: [DONE]" lines ->
  let d := scanLoop um lines id n in
  returned d = true /\
  exists pre c,
    sent d = pre ++ [c] /\ Forall nonTerminal pre /\
    Done c = true /\ Error c = None /\ ID c = responseID d.
Proof.
  revert id n. induction lines as [|line lines IH]; intros id n Hwf Hin;
    [destruct Hin|].
  inversion Hwf as [|? ? Hline Hwf']; subst.
  destruct (String.eqb_spec line "data: [DONE]") as [->|Hne].
  { rewrite scanLoop_done. cbn. split; [reflexivity|].
    exists [], (doneChunk id). repeat split; auto. }
  destruct Hin as [Heq|Hin]; [congruence|].
  pose proof (fun i => IH i (S n) Hwf' Hin) as IH'. cbn zeta in IH'.
  cbn [scanLoop]. unfold malformed in Hline.
  destruct (String.eqb line "" || HasPrefix line ":"); [apply IH'|].
  destruct (HasPrefix line "data: "); [|apply IH'].
  destruct (String.eqb (TrimPrefix line "data: ") "[DONE]").
  { cbn. split; [reflexivity|].
    exists [], (doneChunk id). repeat split; auto. }
  destruct (um (TrimPrefix line "data: ")) as [r|e]; [|discriminate].
  destruct (Choices r) as [|ch chs]; [apply IH'|].
  destruct (FinishReason ch).
  { cbn. split; [reflexivity|]. eexists [], _. repeat split; auto. }
  destruct (IH' (s_ID r)) as (Hret & pre & c & Hsent & Hpre & Hdone & Herr & Hid).
  cbn [send returned sent responseID]. split; [exact Hret|].
  exists ({| ID := s_ID r; Content := d_Content (Delta ch);
             Done := false; Error := None |} :: pre), c.
  rewrite Hsent. repeat split; auto.
Qed.


(** * Properties of the transport *)

Section TransportFacts.

Variable Do : Request -> Z -> DoResult.
Variable c : Client.
Variable req : Request.

(** One iteration of the loop, by the outcome of the call. *)
Lemma retryLoop_step n i vars :
  retryLoop Do c req (S n) i vars =
  let d := Do req i in
  if retryable d then
    let closing := match doResp d with Some _ => [EvClose i] | None => [] end in
    let vars' := (option_map Close (doResp d), doErr d) in
    if i =? maxRetries c then (EvDo i :: closing, vars')
    else
      let '(evs, fin) := retryLoop Do c req n (i + 1) vars' in
      (EvDo i :: closing ++ EvSleep (backoff i) :: evs, fin)
  else ([EvDo i], (doResp d, doErr d)).
Proof.
  cbn [retryLoop]. cbn zeta. destruct (Do req i) as [r|e r]; cbn.
  - destruct (Z.ltb_spec (StatusCode r) 500), (Z.leb_spec 500 (StatusCode r));
      try lia; reflexivity.
  - destruct r; reflexivity.
Qed.

Lemma timeline_closing (i : Z) (o : option Response) evs :
  timeline (match o with Some _ => [EvClose i] | None => [] end ++ evs) =
  timeline evs.
Proof. destruct o; reflexivity. Qed.

(** The loop sends the request [k] times in a row from index [i], sleeping
    [backoff j] after attempt [j]; every attempt but the last had a
    retryable outcome, and the last one had not unless the bound was hit. *)
Lemma retryLoop_shape n : forall i vars,
  Z.of_nat n = maxRetries c - i + 1 ->
  exists k : nat,
    (k <= n)%nat /\ (n = O \/ 1 <= k)%nat /\
    timeline (fst (retryLoop Do c req n i vars)) = scheduleWith backoff k i /\
    (forall j, i <= j < i + Z.of_nat k - 1 -> retryable (Do req j) = true) /\
    ((k < n)%nat -> retryable (Do req (i + Z.of_nat k - 1)) = false).
Proof.
  induction n as [|n IH]; intros i vars Hn.
  - exists O. cbn. repeat split; auto; intros; lia.
  - rewrite retryLoop_step. cbn zeta.
    destruct (retryable (Do req i)) eqn:Hretry.
    + destruct (Z.eqb_spec i (maxRetries c)) as [Hlast|Hmore].
      * exists 1%nat. cbn [fst]. repeat split; try lia.
        change (timeline (EvDo i :: ?l)) with (EvDo i :: timeline l).
        rewrite <- (app_nil_r (match doResp _ with Some _ => _ | None => _ end)).
        now rewrite timeline_closing.
      * destruct (IH (i + 1) (option_map Close (doResp (Do req i)),
                              doErr (Do req i)) ltac:(lia))
          as (k & Hle & Hpos & Htl & Hall & Hlast).
        destruct (retryLoop Do c req n (i + 1) _) as [evs fin].
        cbn [fst] in *.
        exists (S k). repeat split; try lia.
        -- change (timeline (EvDo i :: ?l)) with (EvDo i :: timeline l).
           rewrite timeline_closing.
           change (timeline (EvSleep ?d :: ?l)) with (EvSleep d :: timeline l).
           rewrite Htl. destruct k as [|k]; [lia | reflexivity].
        -- intros j Hj. destruct (Z.eq_dec j i) as [->|Hji]; [exact Hretry|].
           apply Hall. lia.
        -- intros Hlt.
           replace (i + Z.of_nat (S k) - 1) with (i + 1 + Z.of_nat k - 1) by lia.
           apply Hlast. lia.
    + exists 1%nat. cbn [fst]. repeat split; try lia.
      intros _. now replace (i + Z.of_nat 1 - 1) with i by lia.
Qed.

End TransportFacts.

(** ** Schedules *)

Lemma timeline_app evs1 evs2 : timeline (evs1 ++ evs2) = timeline evs1 ++ timeline evs2.
Proof. apply List.filter_app. Qed.

Lemma In_Do_timeline j evs : In (EvDo j) (timeline evs) <-> In (EvDo j) evs.
Proof.
  unfold timeline. rewrite List.filter_In. cbn. intuition.
Qed.

Lemma attempts_timeline evs : attempts (timeline evs) = attempts evs.
Proof.
  unfold attempts, timeline. induction evs as [|e evs IH]; [reflexivity|].
  destruct e; cbn; auto.
Qed.

Lemma In_Do_scheduleWith delay k : forall i j,
  In (EvDo j) (scheduleWith delay k i) <-> i <= j < i + Z.of_nat k.
Proof.
  induction k as [|k IH]; intros i j.
  - cbn. lia.
  - cbn [scheduleWith]. destruct k as [|k].
    + cbn. split; [intros [H|[]]; inversion H; lia | intros H; left; f_equal; lia].
    + cbn [In]. rewrite IH. split.
      * intros [H|[H|H]]; [inversion H; lia | discriminate | lia].
      * intros H. destruct (Z.eq_dec i j) as [->|Hne]; [now left | right; right; lia].
Qed.

Lemma attempts_scheduleWith delay k : forall i,
  attempts (scheduleWith delay k i) = k.
Proof.
  induction k as [|k IH]; intros i; [reflexivity|].
  cbn [scheduleWith]. destruct k as [|k]; [reflexivity|].
  specialize (IH (i + 1)). unfold attempts in *. cbn [List.filter isDo length].
  now rewrite IH.
Qed.

(** Within the range of [int64] the backoff is [i + 1] seconds. *)
Lemma backoff_linear i :
  0 <= i -> i + 1 <= 9223372036 -> backoff i = (i + 1) * Second.
Proof.
  intros H0 Hmax. unfold backoff, wrap64, Second.
  rewrite (Z.mod_small (i + 1 + 2 ^ 63)) by lia.
  replace (i + 1 + 2 ^ 63 - 2 ^ 63) with (i + 1) by lia.
  rewrite Z.mod_small by lia. lia.
Qed.

Lemma scheduleWith_backoff k : forall i,
  0 <= i -> i + Z.of_nat k - 1 <= 9223372036 ->
  scheduleWith backoff k i = schedule k i.
Proof.
  unfold schedule. induction k as [|k IH]; intros i H0 Hmax; [reflexivity|].
  cbn [scheduleWith]. destruct k as [|k]; [reflexivity|].
  rewrite backoff_linear by lia. rewrite IH by lia. reflexivity.
Qed.

(** The attempts and sleeps of [makeRequest] are those of its loop. *)
Lemma makeRequest_timeline jsonMarshal newRequestErr Do unmarshalEnvelope
    c method endpoint body reqBody :
  marshalBody jsonMarshal body = inl reqBody ->
  newRequestErr method (baseURL c +:+ endpoint) = None ->
  timeline (fst (makeRequest jsonMarshal newRequestErr Do unmarshalEnvelope
                   c method endpoint body)) =
  timeline (fst (retryLoop Do c (newRequest c method endpoint reqBody)
                   (Z.to_nat (maxRetries c + 1)) 0 (None, None))).
Proof.
  intros Hm Hn. unfold makeRequest. rewrite Hm, Hn.
  destruct (retryLoop Do c _ _ 0 (None, None)) as [evs [resp err]].
  cbn [fst]. destruct err as [e|]; [reflexivity|].
  destruct resp as [r|]; [|reflexivity].
  destruct (StatusCode r >=? 400); [|reflexivity].
  destruct (unmarshalEnvelope _); cbn [fst];
    rewrite timeline_app; cbn; now rewrite app_nil_r.
Qed.

(** C6: for a request that is sent, attempt [i + 1] is made exactly when
    attempt [i] was made, [i] is below [max_retries], and attempt [i] ended
    with a failed call or a status of 500 or more; so an attempt answered
    with a status below 500, a client error for one, is never retried. The
    attempts and sleeps of the run are attempt 0, a sleep, attempt 1, a
    sleep, and so on up to the last attempt, the sleep after attempt [i]
    being [time.Duration(i+1) * time.Second]: that is [i + 1] seconds, a
    linear schedule, for every [max_retries] whose delays fit the 64 bits of
    a duration. *)
Theorem retry_policy
    (jsonMarshal : openAIChatRequest -> string + error)
    (newRequestErr : string -> string -> option error)
    (Do : Request -> Z -> DoResult)
    (unmarshalEnvelope : string -> option ProviderError)
    (c : Client) (method endpoint : string)
    (body : option openAIChatRequest) (reqBody : option string) :
  marshalBody jsonMarshal body = inl reqBody ->
  newRequestErr method (baseURL c +:+ endpoint) = None ->
  let req := newRequest c method endpoint reqBody in
  let evs := fst (makeRequest jsonMarshal newRequestErr Do unmarshalEnvelope
                    c method endpoint body) in
  (forall i, 0 <= i ->
     In (EvDo (i + 1)) evs <->
     In (EvDo i) evs /\ i < maxRetries c /\ retryable (Do req i) = true) /\
  (forall i r, 0 <= i -> Do req i = DoOk r -> StatusCode r < 500 ->
     ~ In (EvDo (i + 1)) evs) /\
  (0 <= maxRetries c -> In (EvDo 0) evs) /\
  timeline evs = scheduleWith backoff (attempts evs) 0 /\
  (maxRetries c <= 9223372036 -> timeline evs = schedule (attempts evs) 0).
Proof.
  intros Hm Hn. cbn zeta.
  pose proof (makeRequest_timeline jsonMarshal newRequestErr Do
                unmarshalEnvelope c method endpoint body reqBody Hm Hn) as Htl.
  set (evs := fst (makeRequest _ _ _ _ _ _ _ _)) in *.
  set (req := newRequest c method endpoint reqBody) in *.
  set (n := Z.to_nat (maxRetries c + 1)) in *.
  assert (Hshape : exists k : nat,
    (k <= n)%nat /\ (n = O \/ 1 <= k)%nat /\
    timeline evs = scheduleWith backoff k 0 /\
    (forall j, 0 <= j < Z.of_nat k - 1 -> retryable (Do req j) = true) /\
    ((k < n)%nat -> retryable (Do req (Z.of_nat k - 1)) = false)).
  { destruct (Z.le_gt_cases 0 (maxRetries c + 1)) as [Hnn|Hneg].
    - destruct (retryLoop_shape Do c req n 0 (None, None) ltac:(lia))
        as (k & H1 & H2 & H3 & H4 & H5).
      exists k. rewrite Htl. repeat split; auto.
    - exists O. rewrite Htl.
      replace n with O by lia. cbn. repeat split; auto; intros; lia. }
  destruct Hshape as (k & Hle & Hpos & Hsched & Hall & Hlast).
  assert (Hin : forall j, In (EvDo j) evs <-> 0 <= j < Z.of_nat k).
  { intros j. rewrite <- In_Do_timeline, Hsched, In_Do_scheduleWith. lia. }
  assert (Hk : attempts evs = k).
  { now rewrite <- attempts_timeline, Hsched, attempts_scheduleWith. }
  assert (Hiff : forall i, 0 <= i ->
     In (EvDo (i + 1)) evs <->
     In (EvDo i) evs /\ i < maxRetries c /\ retryable (Do req i) = true).
  { intros i Hi. rewrite !Hin. split.
    + intros Hnext. split; [lia|]. split; [lia|]. apply Hall. lia.
    + intros (Hthis & Hlt & Hretry).
      destruct (Z.lt_ge_cases (i + 1) (Z.of_nat k)) as [|Hge]; [lia|].
      assert (Z.of_nat k - 1 = i) as Hik by lia.
      rewrite Hik in Hlast. rewrite Hlast in Hretry by lia. discriminate. }
  split; [exact Hiff|]. split; [|split; [|split]].
  - intros i r Hi Hdo Hstatus Hnext. apply Hiff in Hnext; [|exact Hi].
    destruct Hnext as (_ & _ & Hretry). rewrite Hdo in Hretry. cbn in Hretry.
    apply Z.leb_le in Hretry. lia.
  - intros Hnn. rewrite Hin. lia.
  - now rewrite Hk.
  - intros Hmax. rewrite Hk, Hsched. apply scheduleWith_backoff; lia.
Qed.

Lemma retry_policy_witness :
  let req := newRequest (sampleClient 3) "POST" "/chat/completions" (Some "{}") in
  let evs := fst (makeRequest sampleMarshal sampleNewRequestErr flakyVendor
                    sampleEnvelope (sampleClient 3) "POST" "/chat/completions"
                    (Some (convertRequest sampleRequest))) in
  (forall i, 0 <= i ->
     In (EvDo (i + 1)) evs <->
     In (EvDo i) evs /\ i < maxRetries (sampleClient 3) /\
     retryable (flakyVendor req i) = true) /\
  (forall i r, 0 <= i -> flakyVendor req i = DoOk r -> StatusCode r < 500 ->
     ~ In (EvDo (i + 1)) evs) /\
  (0 <= maxRetries (sampleClient 3) -> In (EvDo 0) evs) /\
  timeline evs = scheduleWith backoff (attempts evs) 0 /\
  (maxRetries (sampleClient 3) <= 9223372036 ->
   timeline evs = schedule (attempts evs) 0).
Proof.
  apply (retry_policy sampleMarshal sampleNewRequestErr flakyVendor
           sampleEnvelope (sampleClient 3) "POST" "/chat/completions"
           (Some (convertRequest sampleRequest)) (Some "{}")).
  - reflexivity.
  - reflexivity.
Defined.

(** The run of the sample: a failed call, a status 503, then a status 429
    that is not retried although one more attempt was allowed. *)
Example flaky_run :
  makeRequest sampleMarshal sampleNewRequestErr flakyVendor sampleEnvelope
    (sampleClient 3) "POST" "/chat/completions"
    (Some (convertRequest sampleRequest)) =
  ([EvDo 0; EvSleep (1 * Second); EvDo 1; EvClose 1; EvSleep (2 * Second);
    EvDo 2; EvCloseFinal],
   Err (ErrAPI 429 "slow down")).
Proof. vm_compute. reflexivity. Qed.

(** ** Server errors on every attempt *)

(** C1, as the code has it: when [max_retries] is 2 and the vendor answers
    every attempt with status 500, the request is sent 3 times, and the
    failure is the one of a status of 400 or more, a vendor error when the
    body read decodes as an error envelope and an API error with status 500
    and the text read otherwise; the call itself never failed, so the
    failure is not a request failure. *)
Theorem server_errors_exhaust_retries
    (jsonMarshal : openAIChatRequest -> string + error)
    (newRequestErr : string -> string -> option error)
    (Do : Request -> Z -> DoResult)
    (unmarshalEnvelope : string -> option ProviderError)
    (c : Client) (method endpoint : string)
    (body : option openAIChatRequest) (reqBody : option string) :
  maxRetries c = 2 ->
  marshalBody jsonMarshal body = inl reqBody ->
  newRequestErr method (baseURL c +:+ endpoint) = None ->
  (forall i, exists r,
     Do (newRequest c method endpoint reqBody) i = DoOk r /\
     StatusCode r = 500) ->
  let run := makeRequest jsonMarshal newRequestErr Do unmarshalEnvelope
               c method endpoint body in
  attempts (fst run) = 3%nat /\
  ((exists pe, snd run = Err (ErrVendor pe)) \/
   (exists raw, snd run = Err (ErrAPI 500 raw))) /\
  (forall n cause, snd run <> Err (ErrRequestFailed n cause)) /\
  (exists raw,
     snd run = match unmarshalEnvelope raw with
               | Some pe => Err (ErrVendor pe)
               | None => Err (ErrAPI 500 raw)
               end).
Proof.
  intros Hmax Hm Hn Hdo. cbn zeta. unfold makeRequest. rewrite Hm, Hn, Hmax.
  change (Z.to_nat (2 + 1)) with 3%nat.
  destruct (Hdo 0) as (r0 & H0 & S0).
  destruct (Hdo 1) as (r1 & H1 & S1).
  destruct (Hdo 2) as (r2 & H2 & S2).
  rewrite retryLoop_step, H0. cbn zeta. cbn [retryable]. rewrite S0, Hmax.
  change (500 <=? 500) with true. change (0 =? 2) with false. cbn iota.
  change (0 + 1) with 1.
  rewrite retryLoop_step, H1. cbn zeta. cbn [retryable]. rewrite S1, Hmax.
  change (500 <=? 500) with true. change (1 =? 2) with false. cbn iota.
  change (1 + 1) with 2.
  rewrite retryLoop_step, H2. cbn zeta. cbn [retryable]. rewrite S2, Hmax.
  change (500 <=? 500) with true. change (2 =? 2) with true. cbn iota.
  cbn [doResp doErr option_map Close StatusCode]. rewrite S2.
  change (500 >=? 400) with true. cbn iota.
  destruct (unmarshalEnvelope _) as [pe|] eqn:Hdec; cbn [fst snd].
  - split; [reflexivity|]. split; [left; now exists pe|].
    split; [discriminate|].
    match type of Hdec with unmarshalEnvelope ?raw = _ => exists raw end.
    now rewrite Hdec.
  - split; [reflexivity|]. split; [right; eexists; reflexivity|].
    split; [discriminate|].
    match type of Hdec with unmarshalEnvelope ?raw = _ => exists raw end.
    now rewrite Hdec.
Qed.

Lemma server_errors_exhaust_retries_witness :
  let run := makeRequest sampleMarshal sampleNewRequestErr always500
               sampleEnvelope (sampleClient 2) "POST" "/chat/completions"
               None in
  attempts (fst run) = 3%nat /\
  ((exists pe, snd run = Err (ErrVendor pe)) \/
   (exists raw, snd run = Err (ErrAPI 500 raw))) /\
  (forall n cause, snd run <> Err (ErrRequestFailed n cause)) /\
  (exists raw,
     snd run = match sampleEnvelope raw with
               | Some pe => Err (ErrVendor pe)
               | None => Err (ErrAPI 500 raw)
               end).
Proof.
  apply (server_errors_exhaust_retries sampleMarshal sampleNewRequestErr
           always500 sampleEnvelope (sampleClient 2) "POST"
           "/chat/completions" None None).
  - reflexivity.
  - reflexivity.
  - reflexivity.
  - intros i. eexists. split; reflexivity.
Defined.

(** C1, as the specification states it, fails: with [max_retries] at 2 and
    status 500 on every attempt, the request is sent 3 times but the failure
    is an API error with status 500, not a request failure. *)
Lemma server_errors_not_request_failed :
  makeRequest sampleMarshal sampleNewRequestErr always500 sampleEnvelope
    (sampleClient 2) "POST" "/chat/completions" None =
  ([EvDo 0; EvClose 0; EvSleep (1 * Second);
    EvDo 1; EvClose 1; EvSleep (2 * Second);
    EvDo 2; EvClose 2; EvCloseFinal],
   Err (ErrAPI 500 "")) /\
  ~ exists n cause,
      snd (makeRequest sampleMarshal sampleNewRequestErr always500
             sampleEnvelope (sampleClient 2) "POST" "/chat/completions" None)
      = Err (ErrRequestFailed n cause).
Proof.
  assert (Heq : makeRequest sampleMarshal sampleNewRequestErr always500
                  sampleEnvelope (sampleClient 2) "POST" "/chat/completions"
                  None =
    ([EvDo 0; EvClose 0; EvSleep (1 * Second);
      EvDo 1; EvClose 1; EvSleep (2 * Second);
      EvDo 2; EvClose 2; EvCloseFinal],
     Err (ErrAPI 500 ""))) by (vm_compute; reflexivity).
  split; [exact Heq|]. rewrite Heq. intros (n & cause & H). discriminate.
Qed.

(** ** Defaults of the client *)

(** C10: [NewClient] keeps every field of the configuration that is set and
    replaces an empty base URL by the default URL, a zero timeout by 30
    seconds and a zero [MaxRetries] by 3; so the client it builds never has
    [maxRetries] at 0. *)
Theorem NewClient_defaults (config : Config) :
  apiKey (NewClient config) = APIKey config /\
  baseURL (NewClient config) =
    (if String.eqb (BaseURL config) "" then "https://api.openai.com/v1"
     else BaseURL config) /\
  httpClient_Timeout (NewClient config) =
    (if Timeout config =? 0 then 30 * Second else Timeout config) /\
  maxRetries (NewClient config) =
    (if MaxRetries config =? 0 then 3 else MaxRetries config) /\
  maxRetries (NewClient config) <> 0.
Proof.
  unfold NewClient. cbn [apiKey baseURL httpClient_Timeout maxRetries].
  repeat split. destruct (Z.eqb_spec (MaxRetries config) 0); lia.
Qed.

(** A client built with a negative [MaxRetries] keeps it, never sends the
    request, and dereferences the nil response. *)
Lemma negative_retries_panic jsonMarshal newRequestErr Do unmarshalEnvelope
    c method endpoint body reqBody :
  maxRetries c < 0 ->
  marshalBody jsonMarshal body = inl reqBody ->
  newRequestErr method (baseURL c +:+ endpoint) = None ->
  makeRequest jsonMarshal newRequestErr Do unmarshalEnvelope
    c method endpoint body = ([], Panic).
Proof.
  intros Hneg Hm Hn. unfold makeRequest. rewrite Hm, Hn.
  replace (Z.to_nat (maxRetries c + 1)) with O by lia. reflexivity.
Qed.

(** * Properties of the service *)

(** ** The registry *)

Lemma registerAll_lookup regs : forall (s : Service) (name : string),
  ~ In name (map fst regs) ->
  providers (registerAll regs s) !! name = providers s !! name.
Proof.
  induction regs as [|[n p] regs IH]; intros s name Hnot; [reflexivity|].
  cbn [registerAll fold_left fst snd RegisterProvider].
  cbn [map fst In] in Hnot.
  change (fold_left _ regs ?s') with (registerAll regs s').
  rewrite IH by tauto. cbn [providers].
  apply lookup_insert_ne. tauto.
Qed.

(** C8: for a name that no registration used, [GetProvider] fails with the
    not-found error for that name, and [Chat] and [ChatStream] of the
    service fail with the same error and cause no event: no log line, no
    call of a provider, no request to a vendor. *)
Theorem unregistered_provider_not_found
    (regs : list (string * Provider)) (name : string) (req : ChatRequest) :
  ~ In name (map fst regs) ->
  let s := registerAll regs NewService in
  GetProvider s name = Err (ErrNotFound name) /\
  ServiceChat s name req = ([], Err (ErrNotFound name)) /\
  ServiceChatStream s name req = ([], Err (ErrNotFound name)).
Proof.
  intros Hnot. cbn zeta.
  assert (Hget : GetProvider (registerAll regs NewService) name =
                 Err (ErrNotFound name)).
  { unfold GetProvider. rewrite registerAll_lookup by exact Hnot.
    cbn [providers NewService]. now rewrite lookup_empty. }
  unfold ServiceChat, ServiceChatStream. rewrite Hget. auto.
Qed.

Lemma unregistered_provider_not_found_witness :
  let s := registerAll [("openai", chattyProvider)] NewService in
  GetProvider s "claude" = Err (ErrNotFound "claude") /\
  ServiceChat s "claude" sampleRequest = ([], Err (ErrNotFound "claude")) /\
  ServiceChatStream s "claude" sampleRequest =
    ([], Err (ErrNotFound "claude")).
Proof.
  apply (unregistered_provider_not_found
           [("openai", chattyProvider)] "claude" sampleRequest).
  cbn. intros [H|[]]. discriminate.
Defined.

(** ** The logging wrapper *)

Lemma logStream_upto name cs : forall n,
  fst (logStream name cs n) = uptoTerminal cs.
Proof.
  induction cs as [|c cs IH]; intros n; [reflexivity|].
  cbn [logStream uptoTerminal]. unfold terminal, hasError.
  destruct (Error c) as [e|].
  - now rewrite orb_true_r.
  - rewrite orb_false_r. destruct (Done c); [reflexivity|].
    specialize (IH (n + 1)). destruct (logStream name cs (n + 1)) as [out evs].
    cbn [fst] in *. now rewrite IH.
Qed.

Lemma uptoTerminal_quiet cs : Forall nonTerminal cs -> uptoTerminal cs = cs.
Proof.
  induction 1 as [|c cs Hc _ IH]; [reflexivity|].
  cbn [uptoTerminal]. unfold nonTerminal in Hc. now rewrite Hc, IH.
Qed.

Lemma uptoTerminal_last pre c :
  Forall nonTerminal pre -> uptoTerminal (pre ++ [c]) = pre ++ [c].
Proof.
  induction 1 as [|x pre Hx _ IH]; cbn [app uptoTerminal].
  - now destruct (terminal c).
  - unfold nonTerminal in Hx. now rewrite Hx, IH.
Qed.


(** * Further properties of the transport *)

Section TransportRuns.

Variable Do : Request -> Z -> DoResult.
Variable c : Client.
Variable req : Request.

(** The loop runs [k] iterations, for some [k] between 1 and the number
    allowed: the outcomes before the last are retryable, the last is not
    unless the bound was hit, and the variables are those of the last
    outcome. *)
Lemma retryLoop_run n : forall i vars,
  Z.of_nat n = maxRetries c - i + 1 -> (1 <= n)%nat ->
  exists k : nat,
    (1 <= k <= n)%nat /\
    retryLoop Do c req n i vars =
      (loopTrace Do req k i, finalVars (Do req (i + Z.of_nat k - 1))) /\
    (forall j, i <= j < i + Z.of_nat k - 1 -> retryable (Do req j) = true) /\
    ((k < n)%nat -> retryable (Do req (i + Z.of_nat k - 1)) = false) /\
    (k = n -> i + Z.of_nat k - 1 = maxRetries c).
Proof.
  induction n as [|n IH]; intros i vars Hn Hpos; [lia|].
  rewrite retryLoop_step. cbn zeta.
  destruct (retryable (Do req i)) eqn:Hretry.
  - destruct (Z.eqb_spec i (maxRetries c)) as [Hlast|Hmore].
    + exists 1%nat. replace (i + Z.of_nat 1 - 1) with i by lia.
      unfold finalVars. cbn [loopTrace]. rewrite Hretry, app_nil_r.
      repeat split; try lia; try (intros; lia).
    + destruct (IH (i + 1) (option_map Close (doResp (Do req i)),
                            doErr (Do req i)) ltac:(lia) ltac:(lia))
        as (k & Hk & Hrun & Hall & Hstop & Hfull).
      rewrite Hrun. exists (S k).
      replace (i + Z.of_nat (S k) - 1) with (i + 1 + Z.of_nat k - 1) by lia.
      split; [lia|]. split; [|split; [|split]].
      * cbn [loopTrace]. rewrite Hretry.
        destruct k as [|k]; [lia | reflexivity].
      * intros j Hj. destruct (Z.eq_dec j i) as [->|Hji]; [exact Hretry|].
        apply Hall. lia.
      * intros Hlt. apply Hstop. lia.
      * intros Heq. apply Hfull. lia.
  - exists 1%nat. replace (i + Z.of_nat 1 - 1) with i by lia.
    unfold finalVars. cbn [loopTrace]. rewrite Hretry.
    repeat split; try lia; try (intros; lia).
Qed.

(** The loop stops at the first outcome that is not retryable. *)
Lemma retryLoop_stops (k : nat) vars :
  Z.of_nat k <= maxRetries c ->
  (forall j, 0 <= j < Z.of_nat k -> retryable (Do req j) = true) ->
  retryable (Do req (Z.of_nat k)) = false ->
  retryLoop Do c req (Z.to_nat (maxRetries c + 1)) 0 vars =
    (loopTrace Do req (S k) 0,
     (doResp (Do req (Z.of_nat k)), doErr (Do req (Z.of_nat k)))).
Proof.
  intros Hk Hall Hstop.
  destruct (retryLoop_run (Z.to_nat (maxRetries c + 1)) 0 vars
              ltac:(lia) ltac:(lia))
    as (k' & Hk' & Hrun & Hall' & Hstop' & _).
  assert (k' = S k) as ->.
  { destruct (Nat.lt_trichotomy k' (S k)) as [Hlt|[Heq|Hgt]]; [|exact Heq|].
    - rewrite Hall in Hstop' by lia. discriminate Hstop'. lia.
    - rewrite Hall' in Hstop by lia. discriminate. }
  rewrite Hrun. replace (0 + Z.of_nat (S k) - 1) with (Z.of_nat k) by lia.
  unfold finalVars. now rewrite Hstop.
Qed.

(** When every outcome is retryable the loop runs to the bound. *)
Lemma retryLoop_exhausts vars :
  0 <= maxRetries c ->
  (forall j, 0 <= j <= maxRetries c -> retryable (Do req j) = true) ->
  retryLoop Do c req (Z.to_nat (maxRetries c + 1)) 0 vars =
    (loopTrace Do req (Z.to_nat (maxRetries c + 1)) 0,
     (option_map Close (doResp (Do req (maxRetries c))),
      doErr (Do req (maxRetries c)))).
Proof.
  intros Hnn Hall.
  destruct (retryLoop_run (Z.to_nat (maxRetries c + 1)) 0 vars
              ltac:(lia) ltac:(lia))
    as (k & Hk & Hrun & _ & Hstop & Hfull).
  assert (k = Z.to_nat (maxRetries c + 1)) as Heq.
  { destruct (Nat.eq_dec k (Z.to_nat (maxRetries c + 1))) as [|Hne]; [assumption|].
    rewrite Hall in Hstop by lia. discriminate Hstop. lia. }
  rewrite Hrun. rewrite (Hfull Heq). rewrite <- Heq.
  unfold finalVars. rewrite Hall by lia. reflexivity.
Qed.

Lemma attempts_loopTrace k : forall i, attempts (loopTrace Do req k i) = k.
Proof.
  induction k as [|k IH]; intros i; [reflexivity|].
  cbn [loopTrace]. unfold attempts in *. cbn [List.filter isDo length].
  rewrite List.filter_app, length_app.
  assert (Hclose : length (List.filter isDo
            (if retryable (Do req i)
             then match doResp (Do req i) with
                  | Some _ => [EvClose i] | None => [] end
             else [])) = O).
  { destruct (retryable _); [destruct (doResp _)|]; reflexivity. }
  rewrite Hclose. destruct k as [|k]; [reflexivity|].
  cbn [List.filter isDo length]. now rewrite IH.
Qed.

Lemma In_Do_loopTrace k : forall i j,
  In (EvDo j) (loopTrace Do req k i) <-> i <= j < i + Z.of_nat k.
Proof.
  induction k as [|k IH]; intros i j; [cbn; lia|].
  cbn [loopTrace In]. rewrite in_app_iff.
  assert (Hclose : ~ In (EvDo j)
            (if retryable (Do req i)
             then match doResp (Do req i) with
                  | Some _ => [EvClose i] | None => [] end
             else [])).
  { destruct (retryable _); [destruct (doResp _)|]; cbn; intuition discriminate. }
  destruct k as [|k].
  - cbn [In]. split.
    + intros [H|[H|[]]]; [inversion H; lia | tauto].
    + intros H. left. f_equal. lia.
  - cbn [In]. rewrite IH. split.
    + intros [H|[H|[H|H]]]; [inversion H; lia | tauto | discriminate | lia].
    + intros H. destruct (Z.eq_dec i j) as [->|Hne]; [now left|].
      right; right; right. lia.
Qed.

Lemma In_Close_loopTrace k : forall i j,
  In (EvClose j) (loopTrace Do req k i) <->
  i <= j < i + Z.of_nat k /\ retryable (Do req j) = true /\
  doResp (Do req j) <> None.
Proof.
  induction k as [|k IH]; intros i j; [cbn; lia|].
  cbn [loopTrace In]. rewrite in_app_iff.
  assert (Hclose : In (EvClose j)
            (if retryable (Do req i)
             then match doResp (Do req i) with
                  | Some _ => [EvClose i] | None => [] end
             else []) <->
          j = i /\ retryable (Do req i) = true /\ doResp (Do req i) <> None).
  { destruct (retryable _); [destruct (doResp _)|]; cbn;
      split; try tauto; try (intros (_ & H & _); discriminate);
      try (intros (_ & _ & H); congruence).
    - intros [H|[]]. inversion H. repeat split; congruence.
    - intros (-> & _). now left. }
  rewrite Hclose. destruct k as [|k].
  - cbn [In]. split.
    + intros [H|[(-> & H1 & H2)|[]]]; [discriminate|]. repeat split; auto; lia.
    + intros (Hj & H1 & H2). right; left.
      assert (j = i) as -> by lia. auto.
  - cbn [In]. rewrite IH. split.
    + intros [H|[(-> & H1 & H2)|[H|(Hj & H1 & H2)]]]; try discriminate.
      * repeat split; auto; lia.
      * repeat split; auto; lia.
    + intros (Hj & H1 & H2). destruct (Z.eq_dec j i) as [->|Hne].
      * right; left. auto.
      * right; right; right. repeat split; auto; lia.
Qed.

End TransportRuns.

Lemma loopTrace_no_final Do req k : forall i,
  ~ In EvCloseFinal (loopTrace Do req k i).
Proof.
  induction k as [|k IH]; intros i; [cbn; tauto|].
  cbn [loopTrace In]. rewrite in_app_iff. intros [H|[H|H]]; [discriminate| |].
  - destruct (retryable _); [destruct (doResp _)|]; cbn in H;
      intuition discriminate.
  - destruct k as [|k]; [destruct H|].
    destruct H as [H|H]; [discriminate | exact (IH _ H)].
Qed.

Lemma totalSleep_app evs1 evs2 :
  totalSleep (evs1 ++ evs2) = totalSleep evs1 + totalSleep evs2.
Proof.
  induction evs1 as [|e evs1 IH]; [reflexivity|].
  destruct e; cbn [app totalSleep]; lia.
Qed.

(** The sleeps of [k] iterations from index [i] add up to the sum of
    [i + 1], ..., [i + k - 1] seconds. *)
Lemma totalSleep_loopTrace Do req k : forall i,
  0 <= i -> i + Z.of_nat k <= 9223372036 ->
  2 * totalSleep (loopTrace Do req (S k) i) =
  Z.of_nat k * (2 * i + Z.of_nat k + 1) * Second.
Proof.
  induction k as [|k IH]; intros i H0 Hmax.
  - cbn [loopTrace]. rewrite app_nil_r. cbn [totalSleep].
    destruct (retryable _); [destruct (doResp _)|]; cbn; lia.
  - change (loopTrace Do req (S (S k)) i) with
      (EvDo i ::
       (if retryable (Do req i)
        then match doResp (Do req i) with
             | Some _ => [EvClose i] | None => [] end
        else []) ++ EvSleep (backoff i) :: loopTrace Do req (S k) (i + 1)).
    cbn [totalSleep]. rewrite totalSleep_app. cbn [totalSleep].
    assert (Hclose : totalSleep
              (if retryable (Do req i)
               then match doResp (Do req i) with
                    | Some _ => [EvClose i] | None => [] end
               else []) = 0).
    { destruct (retryable _); [destruct (doResp _)|]; reflexivity. }
    rewrite Hclose, backoff_linear by lia.
    specialize (IH (i + 1) ltac:(lia) ltac:(lia)). nia.
Qed.

(** The events of a request that is sent: the iterations of the loop, and
    the deferred closing when the response is an error of the vendor. *)
Lemma makeRequest_run jsonMarshal newRequestErr Do unmarshalEnvelope
    c method endpoint body reqBody :
  marshalBody jsonMarshal body = inl reqBody ->
  newRequestErr method (baseURL c +:+ endpoint) = None ->
  0 <= maxRetries c ->
  let req := newRequest c method endpoint reqBody in
  let evs := fst (makeRequest jsonMarshal newRequestErr Do unmarshalEnvelope
                    c method endpoint body) in
  exists k : nat,
    (1 <= k)%nat /\ Z.of_nat k <= maxRetries c + 1 /\
    (evs = loopTrace Do req k 0 \/
     evs = loopTrace Do req k 0 ++ [EvCloseFinal]).
Proof.
  intros Hm Hn Hnn. cbn zeta. unfold makeRequest. rewrite Hm, Hn.
  destruct (retryLoop_run Do c (newRequest c method endpoint reqBody)
              (Z.to_nat (maxRetries c + 1)) 0 (None, None)
              ltac:(lia) ltac:(lia))
    as (k & Hk & Hrun & _).
  rewrite Hrun. exists k. split; [lia|]. split; [lia|].
  destruct (finalVars _) as [resp err].
  destruct err; [now left|]. destruct resp as [r|]; [|now left].
  destruct (StatusCode r >=? 400); [|now left].
  destruct (unmarshalEnvelope _); now right.
Qed.

Lemma attempts_final evs : attempts (evs ++ [EvCloseFinal]) = attempts evs.
Proof.
  unfold attempts. rewrite List.filter_app, length_app. cbn. lia.
Qed.

(** ** Outcomes of a request *)

(** X1: when the first [k] attempts fail in a retryable way and attempt [k],
    within the bound, is answered with a status below 400, the request is
    sent [k + 1] times and that one response is returned as it came: its
    body is not closed, in the loop or after it. *)
Theorem makeRequest_succeeds_after_retries
    (jsonMarshal : openAIChatRequest -> string + error)
    (newRequestErr : string -> string -> option error)
    (Do : Request -> Z -> DoResult)
    (unmarshalEnvelope : string -> option ProviderError)
    (c : Client) (method endpoint : string)
    (body : option openAIChatRequest) (reqBody : option string)
    (k : nat) (r : Response) :
  marshalBody jsonMarshal body = inl reqBody ->
  newRequestErr method (baseURL c +:+ endpoint) = None ->
  let req := newRequest c method endpoint reqBody in
  Z.of_nat k <= maxRetries c ->
  (forall j, 0 <= j < Z.of_nat k -> retryable (Do req j) = true) ->
  Do req (Z.of_nat k) = DoOk r ->
  StatusCode r < 400 ->
  let run := makeRequest jsonMarshal newRequestErr Do unmarshalEnvelope
               c method endpoint body in
  snd run = Ok r /\
  attempts (fst run) = S k /\
  ~ In (EvClose (Z.of_nat k)) (fst run) /\
  ~ In EvCloseFinal (fst run).
Proof.
  intros Hm Hn req Hk Hall Hdo Hstatus. cbn zeta.
  assert (Hstop : retryable (Do req (Z.of_nat k)) = false).
  { rewrite Hdo. cbn. apply Z.leb_gt. lia. }
  unfold makeRequest. rewrite Hm, Hn. fold req.
  rewrite (retryLoop_stops Do c req k (None, None) Hk Hall Hstop).
  rewrite Hdo. cbn [doResp doErr].
  destruct (Z.geb_spec (StatusCode r) 400) as [|_]; [lia|]. cbn [fst snd].
  split; [reflexivity|]. split; [apply attempts_loopTrace|]. split.
  - rewrite In_Close_loopTrace. intros (_ & Hretry & _). congruence.
  - apply loopTrace_no_final.
Qed.

Lemma makeRequest_succeeds_after_retries_witness :
  let run := makeRequest sampleMarshal sampleNewRequestErr
               (fun _ i =>
                  if i <? 2 then DoErr (ErrExternal "timeout") None
                  else DoOk {| StatusCode := 200;
                               RespBody := {| data := "{}"; readErr := None;
                                              endWithData := false;
                                              closed := false |} |})
               sampleEnvelope (sampleClient 3) "GET" "/models" None in
  snd run = Ok {| StatusCode := 200;
                  RespBody := {| data := "{}"; readErr := None;
                                 endWithData := false;
                                 closed := false |} |} /\
  attempts (fst run) = 3%nat /\
  ~ In (EvClose (Z.of_nat 2)) (fst run) /\
  ~ In EvCloseFinal (fst run).
Proof.
  apply (makeRequest_succeeds_after_retries sampleMarshal sampleNewRequestErr
           _ sampleEnvelope (sampleClient 3) "GET" "/models" None None 2%nat).
  - reflexivity.
  - reflexivity.
  - cbn. lia.
  - intros j Hj. cbn beta. destruct (Z.ltb_spec j 2); [reflexivity | lia].
  - reflexivity.
  - cbn. lia.
Defined.

(** X2: a request that is sent fails as a request failure exactly when
    every attempt up to the bound had a retryable outcome and the last call
    itself failed; the failure then wraps the error of that last call and
    reports [max_retries], and the request was sent [max_retries + 1]
    times. *)
Theorem makeRequest_request_failed
    (jsonMarshal : openAIChatRequest -> string + error)
    (newRequestErr : string -> string -> option error)
    (Do : Request -> Z -> DoResult)
    (unmarshalEnvelope : string -> option ProviderError)
    (c : Client) (method endpoint : string)
    (body : option openAIChatRequest) (reqBody : option string) :
  marshalBody jsonMarshal body = inl reqBody ->
  newRequestErr method (baseURL c +:+ endpoint) = None ->
  0 <= maxRetries c ->
  let req := newRequest c method endpoint reqBody in
  let run := makeRequest jsonMarshal newRequestErr Do unmarshalEnvelope
               c method endpoint body in
  forall (n : Z) (e : error),
    snd run = Err (ErrRequestFailed n e) <->
    n = maxRetries c /\
    (exists r, Do req (maxRetries c) = DoErr e r) /\
    (forall j, 0 <= j < maxRetries c -> retryable (Do req j) = true) /\
    Z.of_nat (attempts (fst run)) = maxRetries c + 1.
Proof.
  intros Hm Hn Hnn req run n e. subst run. unfold makeRequest.
  rewrite Hm, Hn. fold req.
  destruct (retryLoop_run Do c req (Z.to_nat (maxRetries c + 1)) 0
              (None, None) ltac:(lia) ltac:(lia))
    as (k & Hk & Hrun & Hall & Hstop & Hfull).
  rewrite Hrun. replace (0 + Z.of_nat k - 1) with (Z.of_nat k - 1) in * by lia.
  unfold finalVars.
  destruct (Do req (Z.of_nat k - 1)) as [r|e' r'] eqn:Hlast; cbn [retryable].
  - (* the last call returned a response: never a request failure *)
    split.
    + intros H. exfalso.
      destruct (500 <=? StatusCode r); cbn [doResp doErr option_map] in H;
        destruct (StatusCode _ >=? 400); try discriminate;
        destruct (unmarshalEnvelope _); discriminate.
    + intros (_ & (r' & Hdo) & Hretry & Hatt). exfalso.
      destruct (Nat.eq_dec k (Z.to_nat (maxRetries c + 1))) as [Heq|Hne].
      * rewrite <- (Hfull Heq) in Hdo.
        replace (0 + Z.of_nat k - 1) with (Z.of_nat k - 1) in Hdo by lia.
        congruence.
      * specialize (Hstop ltac:(lia)).
        pose proof (Hretry (Z.of_nat k - 1) ltac:(lia)) as Hthis.
        rewrite Hlast in Hthis. congruence.
  - (* the last call failed: the bound was hit *)
    assert (Heq : k = Z.to_nat (maxRetries c + 1)).
    { destruct (Nat.eq_dec k (Z.to_nat (maxRetries c + 1))); [assumption|].
      specialize (Hstop ltac:(lia)). discriminate. }
    assert (Hidx : Z.of_nat k - 1 = maxRetries c) by lia.
    cbn [doResp doErr fst snd]. split.
    + intros H. inversion H; subst. split; [reflexivity|].
      split; [exists r'; now rewrite <- Hidx|].
      split; [intros; apply Hall; lia|].
      rewrite attempts_loopTrace. lia.
    + intros (-> & (r & Hdo) & _ & _). rewrite <- Hidx in Hdo.
      rewrite Hlast in Hdo. inversion Hdo; subst. reflexivity.
Qed.

Lemma makeRequest_request_failed_witness :
  let run := makeRequest sampleMarshal sampleNewRequestErr
               (fun _ _ => DoErr (ErrExternal "connection refused") None)
               sampleEnvelope (sampleClient 1) "GET" "/models" None in
  snd run = Err (ErrRequestFailed 1 (ErrExternal "connection refused")).
Proof.
  apply (makeRequest_request_failed sampleMarshal sampleNewRequestErr
           (fun _ _ => DoErr (ErrExternal "connection refused") None)
           sampleEnvelope (sampleClient 1) "GET" "/models" None None
           eq_refl eq_refl ltac:(cbn; lia)).
  split; [reflexivity|]. split; [now exists None|].
  split; [reflexivity|]. vm_compute. reflexivity.
Defined.

(** X3: when attempt [k], reached after [k] retryable outcomes, is answered
    with a status from 400 to 499, it is not retried; the body is read
    whole and then closed, and the failure is the vendor error that the body
    decodes to, or an API error with the status and the raw body. *)
Theorem makeRequest_client_error
    (jsonMarshal : openAIChatRequest -> string + error)
    (newRequestErr : string -> string -> option error)
    (Do : Request -> Z -> DoResult)
    (unmarshalEnvelope : string -> option ProviderError)
    (c : Client) (method endpoint : string)
    (body : option openAIChatRequest) (reqBody : option string)
    (k : nat) (r : Response) :
  marshalBody jsonMarshal body = inl reqBody ->
  newRequestErr method (baseURL c +:+ endpoint) = None ->
  let req := newRequest c method endpoint reqBody in
  Z.of_nat k <= maxRetries c ->
  (forall j, 0 <= j < Z.of_nat k -> retryable (Do req j) = true) ->
  Do req (Z.of_nat k) = DoOk r ->
  400 <= StatusCode r < 500 ->
  closed (RespBody r) = false ->
  let run := makeRequest jsonMarshal newRequestErr Do unmarshalEnvelope
               c method endpoint body in
  snd run =
    match unmarshalEnvelope (data (RespBody r)) with
    | Some pe => Err (ErrVendor pe)
    | None => Err (ErrAPI (StatusCode r) (data (RespBody r)))
    end /\
  fst run = loopTrace Do req (S k) 0 ++ [EvCloseFinal] /\
  attempts (fst run) = S k /\
  ~ In (EvDo (Z.of_nat k + 1)) (fst run).
Proof.
  intros Hm Hn req Hk Hall Hdo Hstatus Hopen. cbn zeta.
  assert (Hstop : retryable (Do req (Z.of_nat k)) = false).
  { rewrite Hdo. cbn. apply Z.leb_gt. lia. }
  unfold makeRequest. rewrite Hm, Hn. fold req.
  rewrite (retryLoop_stops Do c req k (None, None) Hk Hall Hstop).
  rewrite Hdo. cbn [doResp doErr].
  destruct (Z.geb_spec (StatusCode r) 400) as [_|]; [|lia].
  unfold ReadAll. rewrite Hopen.
  assert (Hatt : attempts (loopTrace Do req (S k) 0 ++ [EvCloseFinal]) = S k).
  { now rewrite attempts_final, attempts_loopTrace. }
  assert (Hnext : ~ In (EvDo (Z.of_nat k + 1))
                    (loopTrace Do req (S k) 0 ++ [EvCloseFinal])).
  { rewrite in_app_iff, In_Do_loopTrace. cbn.
    intros [H|[H|[]]]; [lia | discriminate]. }
  destruct (unmarshalEnvelope _); cbn [fst snd]; auto.
Qed.

Lemma makeRequest_client_error_witness :
  let run := makeRequest sampleMarshal sampleNewRequestErr flakyVendor
               sampleEnvelope (sampleClient 3) "GET" "/models" None in
  snd run =
    match sampleEnvelope "slow down" with
    | Some pe => Err (ErrVendor pe)
    | None => Err (ErrAPI 429 "slow down")
    end /\
  fst run =
    loopTrace flakyVendor (newRequest (sampleClient 3) "GET" "/models" None)
              3 0 ++ [EvCloseFinal] /\
  attempts (fst run) = 3%nat /\
  ~ In (EvDo (Z.of_nat 2 + 1)) (fst run).
Proof.
  apply (makeRequest_client_error sampleMarshal sampleNewRequestErr
           flakyVendor sampleEnvelope (sampleClient 3) "GET" "/models"
           None None 2%nat
           {| StatusCode := 429;
              RespBody := {| data := "slow down"; readErr := None;
                             endWithData := false;
                             closed := false |} |}).
  - reflexivity.
  - reflexivity.
  - cbn. lia.
  - intros j Hj. assert (j = 0 \/ j = 1) as [->| ->] by lia; reflexivity.
  - reflexivity.
  - cbn. lia.
  - reflexivity.
Defined.

(** X4: when every attempt up to the bound has a retryable outcome and the
    last one is a response, a server error, that response was closed in the
    loop before it is read: the failure is built from an empty body,
    whatever the vendor sent, as a vendor error if the empty text decodes
    and an API error with the status and no text otherwise. *)
Theorem makeRequest_server_error_body_lost
    (jsonMarshal : openAIChatRequest -> string + error)
    (newRequestErr : string -> string -> option error)
    (Do : Request -> Z -> DoResult)
    (unmarshalEnvelope : string -> option ProviderError)
    (c : Client) (method endpoint : string)
    (body : option openAIChatRequest) (reqBody : option string)
    (r : Response) :
  marshalBody jsonMarshal body = inl reqBody ->
  newRequestErr method (baseURL c +:+ endpoint) = None ->
  let req := newRequest c method endpoint reqBody in
  0 <= maxRetries c ->
  (forall j, 0 <= j < maxRetries c -> retryable (Do req j) = true) ->
  Do req (maxRetries c) = DoOk r ->
  500 <= StatusCode r ->
  let run := makeRequest jsonMarshal newRequestErr Do unmarshalEnvelope
               c method endpoint body in
  snd run =
    match unmarshalEnvelope "" with
    | Some pe => Err (ErrVendor pe)
    | None => Err (ErrAPI (StatusCode r) "")
    end /\
  In (EvClose (maxRetries c)) (fst run) /\
  Z.of_nat (attempts (fst run)) = maxRetries c + 1.
Proof.
  intros Hm Hn req Hnn Hall Hdo Hstatus. cbn zeta.
  assert (Hlast : retryable (Do req (maxRetries c)) = true).
  { rewrite Hdo. cbn. apply Z.leb_le. lia. }
  assert (Hall' : forall j, 0 <= j <= maxRetries c ->
                            retryable (Do req j) = true).
  { intros j Hj. destruct (Z.eq_dec j (maxRetries c)) as [->|];
      [exact Hlast | apply Hall; lia]. }
  unfold makeRequest. rewrite Hm, Hn. fold req.
  rewrite (retryLoop_exhausts Do c req (None, None) Hnn Hall').
  rewrite Hdo. cbn [doResp doErr option_map Close StatusCode RespBody].
  destruct (Z.geb_spec (StatusCode r) 400) as [_|]; [|lia].
  unfold ReadAll. cbn [closed].
  assert (Hclose : In (EvClose (maxRetries c))
            (loopTrace Do req (Z.to_nat (maxRetries c + 1)) 0 ++ [EvCloseFinal])).
  { rewrite in_app_iff. left. rewrite In_Close_loopTrace.
    rewrite Hlast, Hdo. cbn. repeat split; try lia. discriminate. }
  assert (Hatt : Z.of_nat (attempts
            (loopTrace Do req (Z.to_nat (maxRetries c + 1)) 0 ++ [EvCloseFinal]))
          = maxRetries c + 1).
  { rewrite attempts_final, attempts_loopTrace. lia. }
  destruct (unmarshalEnvelope ""); cbn [fst snd]; auto.
Qed.

Lemma makeRequest_server_error_body_lost_witness :
  let run := makeRequest sampleMarshal sampleNewRequestErr always500
               sampleEnvelope (sampleClient 1) "GET" "/models" None in
  snd run =
    match sampleEnvelope "" with
    | Some pe => Err (ErrVendor pe)
    | None => Err (ErrAPI 500 "")
    end /\
  In (EvClose 1) (fst run) /\
  Z.of_nat (attempts (fst run)) = 1 + 1.
Proof.
  apply (makeRequest_server_error_body_lost sampleMarshal sampleNewRequestErr
           always500 sampleEnvelope (sampleClient 1) "GET" "/models"
           None None
           {| StatusCode := 500;
              RespBody := {| data := "upstream unavailable";
                             readErr := None; endWithData := false; closed := false |} |}).
  - reflexivity.
  - reflexivity.
  - cbn. lia.
  - intros j Hj. reflexivity.
  - reflexivity.
  - cbn. lia.
Defined.

(** X5: a request that is sent is sent at most [max_retries + 1] times, and
    the time it sleeps between [a] attempts is 1 + 2 + ... + (a - 1)
    seconds, at most [max_retries * (max_retries + 1) / 2] seconds. *)
Theorem makeRequest_sleep_bound
    (jsonMarshal : openAIChatRequest -> string + error)
    (newRequestErr : string -> string -> option error)
    (Do : Request -> Z -> DoResult)
    (unmarshalEnvelope : string -> option ProviderError)
    (c : Client) (method endpoint : string)
    (body : option openAIChatRequest) (reqBody : option string) :
  marshalBody jsonMarshal body = inl reqBody ->
  newRequestErr method (baseURL c +:+ endpoint) = None ->
  0 <= maxRetries c <= 9223372036 ->
  let evs := fst (makeRequest jsonMarshal newRequestErr Do unmarshalEnvelope
                    c method endpoint body) in
  let a := Z.of_nat (attempts evs) in
  1 <= a <= maxRetries c + 1 /\
  2 * totalSleep evs = a * (a - 1) * Second /\
  2 * totalSleep evs <= maxRetries c * (maxRetries c + 1) * Second.
Proof.
  intros Hm Hn Hrange. cbn zeta.
  destruct (makeRequest_run jsonMarshal newRequestErr Do unmarshalEnvelope
              c method endpoint body reqBody Hm Hn ltac:(lia))
    as (k & Hk1 & Hk2 & Hevs).
  cbn zeta in Hevs.
  set (evs := fst (makeRequest _ _ _ _ _ _ _ _)) in *.
  set (req := newRequest c method endpoint reqBody) in *.
  assert (Hatt : attempts evs = k).
  { destruct Hevs as [-> | ->].
    - apply attempts_loopTrace.
    - now rewrite attempts_final, attempts_loopTrace. }
  assert (Hsleep : totalSleep evs = totalSleep (loopTrace Do req k 0)).
  { destruct Hevs as [-> | ->]; [reflexivity|].
    rewrite totalSleep_app. cbn. lia. }
  rewrite Hatt, Hsleep. destruct k as [|k]; [lia|].
  rewrite totalSleep_loopTrace by lia.
  unfold Second. split; [lia|]. split; [nia|]. nia.
Qed.

Lemma makeRequest_sleep_bound_witness :
  let evs := fst (makeRequest sampleMarshal sampleNewRequestErr always500
                    sampleEnvelope (sampleClient 2) "GET" "/models" None) in
  let a := Z.of_nat (attempts evs) in
  1 <= a <= 2 + 1 /\
  2 * totalSleep evs = a * (a - 1) * Second /\
  2 * totalSleep evs <= 2 * (2 + 1) * Second.
Proof.
  apply (makeRequest_sleep_bound sampleMarshal sampleNewRequestErr always500
           sampleEnvelope (sampleClient 2) "GET" "/models" None None).
  - reflexivity.
  - reflexivity.
  - cbn. lia.
Defined.

(** X6: in a request that is sent, the response of attempt [j] is closed in
    the loop exactly when attempt [j] was made, its outcome was retryable,
    and it came with a response: no response is dropped open, and the
    response that ends the loop without a retry is not closed there. *)
Theorem makeRequest_closes_retried
    (jsonMarshal : openAIChatRequest -> string + error)
    (newRequestErr : string -> string -> option error)
    (Do : Request -> Z -> DoResult)
    (unmarshalEnvelope : string -> option ProviderError)
    (c : Client) (method endpoint : string)
    (body : option openAIChatRequest) (reqBody : option string) :
  marshalBody jsonMarshal body = inl reqBody ->
  newRequestErr method (baseURL c +:+ endpoint) = None ->
  0 <= maxRetries c ->
  let req := newRequest c method endpoint reqBody in
  let evs := fst (makeRequest jsonMarshal newRequestErr Do unmarshalEnvelope
                    c method endpoint body) in
  forall j,
    In (EvClose j) evs <->
    In (EvDo j) evs /\ retryable (Do req j) = true /\
    doResp (Do req j) <> None.
Proof.
  intros Hm Hn Hnn. cbn zeta. intros j.
  destruct (makeRequest_run jsonMarshal newRequestErr Do unmarshalEnvelope
              c method endpoint body reqBody Hm Hn Hnn)
    as (k & Hk1 & Hk2 & Hevs).
  cbn zeta in Hevs.
  destruct Hevs as [-> | ->]; rewrite ?in_app_iff, In_Close_loopTrace,
    In_Do_loopTrace; cbn [In]; intuition discriminate.
Qed.

Lemma makeRequest_closes_retried_witness :
  let evs := fst (makeRequest sampleMarshal sampleNewRequestErr flakyVendor
                    sampleEnvelope (sampleClient 3) "GET" "/models" None) in
  In (EvClose 1) evs <->
  In (EvDo 1) evs /\
  retryable (flakyVendor (newRequest (sampleClient 3) "GET" "/models" None) 1)
    = true /\
  doResp (flakyVendor (newRequest (sampleClient 3) "GET" "/models" None) 1)
    <> None.
Proof.
  apply (makeRequest_closes_retried sampleMarshal sampleNewRequestErr
           flakyVendor sampleEnvelope (sampleClient 3) "GET" "/models"
           None None).
  - reflexivity.
  - reflexivity.
  - cbn. lia.
Defined.

(** * Further properties of the streaming decoder *)

(** ** From bytes to lines *)

Lemma append_cons a s t : String a s +:+ t = String a (s +:+ t).
Proof. reflexivity. Qed.

Lemma append_nil_l t : "" +:+ t = t.
Proof. reflexivity. Qed.

Lemma append_nil_r s : s +:+ "" = s.
Proof.
  induction s as [|a s IH]; [reflexivity|]. now rewrite append_cons, IH.
Qed.

Lemma append_assoc s1 s2 s3 : (s1 +:+ s2) +:+ s3 = s1 +:+ (s2 +:+ s3).
Proof.
  induction s1 as [|a s1 IH]; [reflexivity|]. now rewrite !append_cons, IH.
Qed.

Lemma length_append s1 s2 :
  String.length (s1 +:+ s2) = (String.length s1 + String.length s2)%nat.
Proof.
  induction s1 as [|a s1 IH]; [reflexivity|].
  rewrite append_cons. cbn [String.length]. now rewrite IH.
Qed.

Lemma rev_app_rev_app l : forall cur acc,
  String.rev_app (String.rev_app l cur) acc = String.rev_app cur (l +:+ acc).
Proof.
  induction l as [|a l IH]; intros cur acc; [reflexivity|].
  cbn [String.rev_app]. now rewrite IH, append_cons.
Qed.

Lemma rev_rev_app l : String.rev (String.rev_app l "") = l.
Proof.
  unfold String.rev. rewrite rev_app_rev_app. cbn [String.rev_app].
  apply append_nil_r.
Qed.

Lemma dropCR_CR l : dropCR (l +:+ String "013"%char "") = l.
Proof.
  induction l as [|a l IH]; [reflexivity|].
  rewrite append_cons. destruct l as [|b l]; [reflexivity|].
  rewrite append_cons in *. cbn [dropCR] in *. now rewrite IH.
Qed.

Lemma noNewline_append s1 s2 :
  noNewline (s1 +:+ s2) = noNewline s1 && noNewline s2.
Proof.
  induction s1 as [|a s1 IH]; [reflexivity|].
  rewrite append_cons. cbn [noNewline]. rewrite IH. now rewrite andb_assoc.
Qed.

(** The scanner reads a text without line feed up to the line feed that
    follows, when the buffer can hold it. *)
Lemma scanLines_line w l : forall cur n rest,
  noNewline l = true ->
  (n + N.of_nat (String.length l) < MaxScanTokenSize)%N ->
  scanLines w (l +:+ String "010"%char rest) cur n =
  (dropCR (String.rev (String.rev_app l cur)) :: fst (scanLines w rest "" 0),
   snd (scanLines w rest "" 0)).
Proof.
  induction l as [|a l IH]; intros cur n rest Hnl Hlen.
  - rewrite append_nil_l. cbn [scanLines].
    destruct (N.leb_spec MaxScanTokenSize n) as [|_];
      [cbn [String.length] in Hlen; lia|].
    change (Ascii.eqb "010" "010") with true. cbn iota.
    now destruct (scanLines w rest "" 0).
  - rewrite append_cons. cbn [scanLines].
    cbn [noNewline] in Hnl. apply andb_true_iff in Hnl as [Ha Hnl].
    apply negb_true_iff in Ha. cbn [String.length] in Hlen.
    destruct (N.leb_spec MaxScanTokenSize n) as [|_]; [lia|].
    rewrite Ha. rewrite IH; [reflexivity | exact Hnl | lia].
Qed.

(** A text without line feed that fills the buffer stops the scanner,
    unless it is the very end of the input, fills the buffer exactly, and
    the end came with its last bytes. *)
Lemma scanLines_too_long w l : forall cur n rest,
  noNewline l = true ->
  (MaxScanTokenSize <= n + N.of_nat (String.length l))%N ->
  (MaxScanTokenSize <
   n + N.of_nat (String.length l) + N.of_nat (String.length rest))%N \/
  w = false ->
  scanLines w (l +:+ rest) cur n = ([], true).
Proof.
  induction l as [|a l IH]; intros cur n rest Hnl Hlen Hmore.
  - rewrite append_nil_l. cbn [String.length] in Hlen, Hmore.
    destruct rest as [|ch rest]; cbn [scanLines].
    + cbn [String.length] in Hmore.
      destruct (N.ltb_spec MaxScanTokenSize n) as [_|Hn]; [reflexivity|].
      destruct Hmore as [Hmore| ->]; [lia|].
      assert (n = MaxScanTokenSize) as -> by lia.
      now rewrite N.eqb_refl.
    + destruct (N.leb_spec MaxScanTokenSize n) as [_|]; [reflexivity | lia].
  - rewrite append_cons. cbn [scanLines].
    destruct (N.leb_spec MaxScanTokenSize n) as [_|Hn]; [reflexivity|].
    cbn [noNewline] in Hnl. apply andb_true_iff in Hnl as [Ha Hnl].
    apply negb_true_iff in Ha. rewrite Ha.
    cbn [String.length] in Hlen, Hmore.
    apply IH; [exact Hnl | lia |]. destruct Hmore; [left; lia | now right].
Qed.

(** A last line without line feed is a line when it is below the limit, or
    at the limit with the end of the input reported with it. *)
Lemma scanLines_last w l : forall cur n,
  noNewline l = true ->
  (N.of_nat (String.length l) + N.of_nat (String.length cur) > 0)%N ->
  (n + N.of_nat (String.length l) < MaxScanTokenSize)%N \/
  ((n + N.of_nat (String.length l) = MaxScanTokenSize)%N /\ w = true) ->
  scanLines w l cur n = ([dropCR (String.rev (String.rev_app l cur))], false).
Proof.
  induction l as [|a l IH]; intros cur n Hnl Hpos Hlen.
  - cbn [scanLines String.rev_app]. cbn [String.length] in Hlen, Hpos.
    assert (Htest : ((MaxScanTokenSize <? n)%N
                     || ((MaxScanTokenSize =? n)%N && negb w)) = false).
    { destruct Hlen as [Hlt|[Heq ->]].
      - destruct (N.ltb_spec MaxScanTokenSize n); [lia|].
        destruct (N.eqb_spec MaxScanTokenSize n); [lia | reflexivity].
      - destruct (N.ltb_spec MaxScanTokenSize n); [lia|].
        now rewrite andb_false_r. }
    rewrite Htest. destruct cur; [cbn in Hpos; lia | reflexivity].
  - cbn [scanLines]. cbn [noNewline] in Hnl.
    apply andb_true_iff in Hnl as [Ha Hnl]. apply negb_true_iff in Ha.
    cbn [String.length] in Hlen. rewrite Nat2N.inj_succ in Hlen.
    destruct (N.leb_spec MaxScanTokenSize n) as [Hfull|_];
      [destruct Hlen as [Hlt|[Heq _]]; lia|].
    rewrite Ha. rewrite IH; [reflexivity | exact Hnl | |].
    + cbn [String.length]. lia.
    + destruct Hlen as [Hlt|[Heq Hw]]; [left; lia | right; split; [lia|exact Hw]].
Qed.

(** Plain lines with their line endings, then anything. *)
Lemma scanLines_joinLines_LF w lines tail :
  Forall plainLine lines ->
  scanLines w (joinLines LF lines +:+ tail) "" 0 =
  (lines ++ fst (scanLines w tail "" 0), snd (scanLines w tail "" 0)).
Proof.
  induction 1 as [|l lines (Hnl & Hcr & Hlen) _ IH]; cbn [joinLines app].
  - rewrite append_nil_l. now destruct (scanLines w tail "" 0).
  - unfold LF at 1. rewrite !append_assoc, append_cons, append_nil_l.
    rewrite scanLines_line; [|exact Hnl| unfold MaxScanTokenSize in *; lia].
    rewrite IH. cbn [fst snd]. now rewrite rev_rev_app, Hcr.
Qed.

Lemma scanLines_joinLines_CRLF w lines tail :
  Forall plainLine lines ->
  scanLines w (joinLines CRLF lines +:+ tail) "" 0 =
  (lines ++ fst (scanLines w tail "" 0), snd (scanLines w tail "" 0)).
Proof.
  induction 1 as [|l lines (Hnl & Hcr & Hlen) _ IH]; cbn [joinLines app].
  - rewrite append_nil_l. now destruct (scanLines w tail "" 0).
  - unfold CRLF at 1, LF at 1. rewrite !append_assoc.
    rewrite !append_cons, append_nil_l.
    change (l +:+ String "013" (String "010" (joinLines CRLF lines +:+ tail)))
      with (l +:+ (String "013" "" +:+
                   String "010" (joinLines CRLF lines +:+ tail))).
    rewrite <- append_assoc.
    rewrite scanLines_line.
    + rewrite IH. cbn [fst snd]. now rewrite rev_rev_app, dropCR_CR.
    + rewrite noNewline_append, Hnl. reflexivity.
    + rewrite length_append. cbn [String.length].
      unfold MaxScanTokenSize in *. lia.
Qed.

Lemma scanLines_end w : scanLines w "" "" 0 = ([], false).
Proof. now destruct w. Qed.

(** X7: the scanner gives back the lines of a body: for plain lines that
    each end with a line feed, or each with a carriage return and a line
    feed, the scanner of the body yields exactly these lines, and its error
    is the read error of the body, if any. *)
Theorem scanner_lines_round_trip (lines : list string) (e : option error)
    (w : bool) :
  Forall plainLine lines ->
  NewScanner {| data := joinLines LF lines; readErr := e; endWithData := w; closed := false |} =
    {| tokens := lines; scanErr := e |} /\
  NewScanner {| data := joinLines CRLF lines; readErr := e; endWithData := w; closed := false |} =
    {| tokens := lines; scanErr := e |}.
Proof.
  intros Hplain. unfold NewScanner. cbn [closed data readErr endWithData].
  rewrite <- (append_nil_r (joinLines LF lines)).
  rewrite <- (append_nil_r (joinLines CRLF lines)).
  rewrite scanLines_joinLines_LF, scanLines_joinLines_CRLF by exact Hplain.
  rewrite scanLines_end. cbn [fst snd].
  now rewrite app_nil_r.
Qed.

Lemma scanner_lines_round_trip_witness :
  NewScanner {| data := joinLines LF [dataLine payloadHi; ""; "data: [DONE]"];
                readErr := None; endWithData := false; closed := false |} =
    {| tokens := [dataLine payloadHi; ""; "data: [DONE]"]; scanErr := None |} /\
  NewScanner {| data := joinLines CRLF [dataLine payloadHi; ""; "data: [DONE]"];
                readErr := None; endWithData := false; closed := false |} =
    {| tokens := [dataLine payloadHi; ""; "data: [DONE]"]; scanErr := None |}.
Proof.
  apply (scanner_lines_round_trip [dataLine payloadHi; ""; "data: [DONE]"]
           None false).
  repeat constructor; vm_compute; reflexivity.
Defined.

(** X8: a line that fills the buffer of 65536 bytes stops the scanner: when
    the body goes on after 65536 bytes of a line without line feed, or ends
    there without reporting its end together with its last bytes, the plain
    lines before it are the only lines read, whatever follows is lost, and
    the scanner reports that the token is too long, so that a stream without
    terminal chunk so far ends with a chunk that carries this error. Only a
    last line of exactly 65536 bytes whose end is reported with its last
    bytes is still read as a line. *)
Theorem scanner_line_too_long
    (um : string -> openAIStreamResponse + error)
    (lines : list string) (long rest : string) (e : option error)
    (w : bool) :
  Forall plainLine lines ->
  noNewline long = true ->
  (MaxScanTokenSize <= N.of_nat (String.length long))%N ->
  let body := {| data := joinLines LF lines +:+ long +:+ rest;
                 readErr := e; endWithData := w; closed := false |} in
  ((MaxScanTokenSize <
    N.of_nat (String.length long) + N.of_nat (String.length rest))%N \/
   w = false ->
   NewScanner body = {| tokens := lines; scanErr := Some ErrTooLong |} /\
   (returned (scanLoop um lines "" 0) = false ->
    decodeBody um body =
      sent (scanLoop um lines "" 0) ++
      [errorChunk (ErrStreamScan ErrTooLong)])) /\
  (N.of_nat (String.length long) = MaxScanTokenSize -> rest = "" ->
   w = true ->
   NewScanner body = {| tokens := lines ++ [dropCR long]; scanErr := e |}).
Proof.
  intros Hplain Hnl Hlen. cbn zeta. split.
  - intros Hmore.
    assert (Hsc : NewScanner {| data := joinLines LF lines +:+ long +:+ rest;
                                readErr := e; endWithData := w;
                                closed := false |} =
                  {| tokens := lines; scanErr := Some ErrTooLong |}).
    { unfold NewScanner. cbn [closed data readErr endWithData].
      rewrite scanLines_joinLines_LF by exact Hplain.
      rewrite scanLines_too_long; [| exact Hnl | lia |].
      - cbn [fst snd]. now rewrite app_nil_r.
      - destruct Hmore as [Hmore|Hw]; [left; lia | now right]. }
    split; [exact Hsc|]. intros Hrun.
    unfold decodeBody. rewrite Hsc. unfold streamGoroutine.
    cbn [tokens scanErr]. now rewrite Hrun.
  - intros Hexact -> ->. unfold NewScanner.
    cbn [closed data readErr endWithData].
    rewrite scanLines_joinLines_LF by exact Hplain. rewrite append_nil_r.
    rewrite scanLines_last; [| exact Hnl | | right; split; [lia | reflexivity]].
    + cbn [fst snd]. now rewrite rev_rev_app.
    + cbn [String.length]. unfold MaxScanTokenSize in *. lia.
Qed.

Lemma scanner_line_too_long_witness :
  let body := {| data := joinLines LF [dataLine payloadHi] +:+ longLine +:+
                         "data: [DONE]";
                 readErr := None; endWithData := true; closed := false |} in
  NewScanner body =
    {| tokens := [dataLine payloadHi]; scanErr := Some ErrTooLong |} /\
  (returned (scanLoop sampleUnmarshal [dataLine payloadHi] "" 0) = false ->
   decodeBody sampleUnmarshal body =
     sent (scanLoop sampleUnmarshal [dataLine payloadHi] "" 0) ++
     [errorChunk (ErrStreamScan ErrTooLong)]).
Proof.
  apply (proj1 (scanner_line_too_long sampleUnmarshal [dataLine payloadHi]
                  longLine "data: [DONE]" None true
                  ltac:(repeat constructor; vm_compute; reflexivity)
                  ltac:(vm_compute; reflexivity)
                  ltac:(vm_compute; discriminate))).
  left. vm_compute. reflexivity.
Defined.

(** ** Lines that are not data frames *)

Lemma data_line_not_skipped line :
  HasPrefix line "data: " = true ->
  String.eqb line "" || HasPrefix line ":" = false.
Proof.
  destruct line as [|ch rest]; [discriminate|].
  unfold HasPrefix. cbn [String.prefix String.eqb].
  destruct (ascii_dec "d" ch) as [<-|]; [|discriminate].
  intros _. destruct rest; reflexivity.
Qed.

Lemma scanLoop_filter_data um lines : forall id n m,
  sameOutcome (scanLoop um (List.filter isDataLine lines) id n)
              (scanLoop um lines id m).
Proof.
  induction lines as [|line lines IH]; intros id n m;
    [repeat split|].
  cbn [List.filter]. unfold isDataLine at 1.
  destruct (HasPrefix line "data: ") eqn:Hdata.
  - cbn [scanLoop]. rewrite (data_line_not_skipped line Hdata), Hdata.
    destruct (String.eqb (TrimPrefix line "data: ") "[DONE]");
      [repeat split|].
    destruct (um (TrimPrefix line "data: ")) as [r|e]; [|repeat split].
    destruct (Choices r) as [|ch chs]; [apply IH|].
    destruct (FinishReason ch); [repeat split|].
    destruct (IH (s_ID r) (S n) (S m)) as (Hs & Hr & Hi).
    unfold sameOutcome. cbn [send sent returned responseID].
    now rewrite Hs, Hr, Hi.
  - cbn [scanLoop]. rewrite Hdata.
    destruct (String.eqb line "" || HasPrefix line ":"); apply IH.
Qed.

(** X9: the lines that do not start with [data: ] (blank lines, comments,
    other fields, a data field without the space) change nothing: the
    stream delivers the same chunks with them and without them. *)
Theorem non_data_lines_ignored
    (um : string -> openAIStreamResponse + error)
    (lines : list string) (scErr : option error) :
  sent (streamGoroutine um
          {| tokens := List.filter isDataLine lines; scanErr := scErr |}) =
  sent (streamGoroutine um {| tokens := lines; scanErr := scErr |}).
Proof.
  unfold streamGoroutine. cbn [tokens scanErr].
  destruct (scanLoop_filter_data um lines "" 0%nat 0%nat) as (Hs & Hr & _).
  rewrite Hr. destruct (returned (scanLoop um lines "" 0)); [exact Hs|].
  destruct scErr; cbn [sent]; now rewrite Hs.
Qed.

(** ** Frames with a choice *)

(** X10: when the decoder reaches a data frame that decodes to a response
    with at least one choice, it sends one chunk, with the id of the
    response and the text of the first choice, the other choices being
    left out. If the first choice has a finish reason the chunk is done and
    the stream ends there, no line after the frame being read; otherwise
    the chunk is not done and the decoder goes on with the next line. *)
Theorem content_frame_chunk
    (um : string -> openAIStreamResponse + error)
    (pre rest : list string) (payload : string)
    (r : openAIStreamResponse) (ch : streamChoice) (chs : list streamChoice) :
  returned (scanLoop um pre "" 0) = false ->
  payload <> "[DONE]" ->
  um payload = inl r ->
  Choices r = ch :: chs ->
  let chunk done := {| ID := s_ID r; Content := d_Content (Delta ch);
                       Done := done; Error := None |} in
  let d := scanLoop um (pre ++ dataLine payload :: rest) "" 0 in
  match FinishReason ch with
  | Some _ =>
    sent d = sent (scanLoop um pre "" 0) ++ [chunk true] /\
    returned d = true /\ reads d = S (length pre)
  | None =>
    d = prepend (sent (scanLoop um pre "" 0) ++ [chunk false])
                (scanLoop um rest (s_ID r) (S (length pre)))
  end.
Proof.
  intros Hrun Hne Hum Hch. cbn zeta.
  rewrite scanLoop_app. cbn zeta. rewrite Hrun.
  rewrite scanLoop_dataLine by exact Hne. rewrite Hum, Hch. cbn zeta.
  destruct (scanLoop_reads um pre "" 0) as [_ Hreads].
  specialize (Hreads Hrun). cbn in Hreads. rewrite Hreads.
  destruct (FinishReason ch).
  - cbn. auto.
  - unfold prepend, send. cbn [sent returned responseID reads].
    now rewrite <- app_assoc.
Qed.

Lemma content_frame_chunk_witness :
  let chunk done := {| ID := s_ID frameStop;
                       Content := d_Content
                         (Delta {| Index := 0;
                                   Delta := {| d_Role := ""; d_Content := "bye" |};
                                   FinishReason := Some "stop" |});
                       Done := done; Error := None |} in
  let d := scanLoop sampleUnmarshal3
             ([dataLine payloadHi] ++ dataLine payloadStop :: ["data: [DONE]"])
             "" 0 in
  sent d = sent (scanLoop sampleUnmarshal3 [dataLine payloadHi] "" 0) ++
           [chunk true] /\
  returned d = true /\ reads d = S (length [dataLine payloadHi]).
Proof.
  apply (content_frame_chunk sampleUnmarshal3 [dataLine payloadHi]
           ["data: [DONE]"] payloadStop frameStop
           {| Index := 0;
              Delta := {| d_Role := ""; d_Content := "bye" |};
              FinishReason := Some "stop" |} []).
  - vm_compute; reflexivity.
  - intros H; vm_compute in H; discriminate.
  - vm_compute; reflexivity.
  - reflexivity.
Defined.

(** ** How many chunks *)

Lemma scanLoop_sent_length um lines : forall id n,
  (length (sent (scanLoop um lines id n)) <=
   length (List.filter isDataLine lines))%nat.
Proof.
  induction lines as [|line lines IH]; intros id n; [cbn; lia|].
  cbn [scanLoop List.filter]. unfold isDataLine at 1.
  destruct (HasPrefix line "data: ") eqn:Hdata.
  - rewrite (data_line_not_skipped line Hdata). cbn [length].
    destruct (String.eqb (TrimPrefix line "data: ") "[DONE]"); [cbn; lia|].
    destruct (um (TrimPrefix line "data: ")) as [r|e]; [|cbn; lia].
    destruct (Choices r) as [|ch chs]; [specialize (IH (s_ID r) (S n)); lia|].
    destruct (FinishReason ch); [cbn; lia|].
    cbn [send sent length]. specialize (IH (s_ID r) (S n)). lia.
  - destruct (String.eqb line "" || HasPrefix line ":"); apply IH.
Qed.

(** X11: a stream never delivers more chunks than its body has data lines,
    plus one when the scanner ends on an error: no frame is delivered
    twice. *)
Theorem chunks_bounded_by_data_lines
    (um : string -> openAIStreamResponse + error) (sc : Scanner) :
  (length (sent (streamGoroutine um sc)) <=
   length (List.filter isDataLine (tokens sc)) +
   match scanErr sc with Some _ => 1 | None => 0 end)%nat.
Proof.
  unfold streamGoroutine.
  pose proof (scanLoop_sent_length um (tokens sc) "" 0%nat) as Hlen.
  destruct (returned (scanLoop um (tokens sc) "" 0)); [lia|].
  destruct (scanErr sc); cbn [sent]; rewrite ?length_app; cbn [length]; lia.
Qed.

(** * The list of models *)

(** A request that ends on a status below 400 returns that response. *)
Lemma makeRequest_ok jsonMarshal newRequestErr Do unmarshalEnvelope
    c method endpoint body reqBody (k : nat) (r : Response) :
  marshalBody jsonMarshal body = inl reqBody ->
  newRequestErr method (baseURL c +:+ endpoint) = None ->
  Z.of_nat k <= maxRetries c ->
  (forall j, 0 <= j < Z.of_nat k ->
     retryable (Do (newRequest c method endpoint reqBody) j) = true) ->
  Do (newRequest c method endpoint reqBody) (Z.of_nat k) = DoOk r ->
  StatusCode r < 400 ->
  makeRequest jsonMarshal newRequestErr Do unmarshalEnvelope
    c method endpoint body =
  (loopTrace Do (newRequest c method endpoint reqBody) (S k) 0, Ok r).
Proof.
  intros Hm Hn Hk Hall Hdo Hstatus.
  assert (Hstop : retryable (Do (newRequest c method endpoint reqBody)
                               (Z.of_nat k)) = false).
  { rewrite Hdo. cbn. apply Z.leb_gt. lia. }
  unfold makeRequest. rewrite Hm, Hn.
  rewrite (retryLoop_stops Do c _ k (None, None) Hk Hall Hstop).
  rewrite Hdo. cbn [doResp doErr].
  destruct (Z.geb_spec (StatusCode r) 400) as [|_]; [lia | reflexivity].
Qed.

(** X12: [GetAvailableModels] sends a GET without body, so that the
    serializer plays no part in it; when the vendor, after [k] retryable
    outcomes, answers with a status below 400 and a body that decodes to a
    list of models, the result is the ids of the models in the order of the
    vendor, one for each model, the response has been printed and its body
    is closed. *)
Theorem models_listed_in_order
    (jsonMarshal : openAIChatRequest -> string + error)
    (newRequestErr : string -> string -> option error)
    (Do : Request -> Z -> DoResult)
    (unmarshalEnvelope : string -> option ProviderError)
    (decodeModels : Body -> openAIModelResponse + error)
    (c : Client) (k : nat) (r : Response) (listed : openAIModelResponse) :
  newRequestErr "GET" (baseURL c +:+ "/models") = None ->
  let req := newRequest c "GET" "/models" None in
  Z.of_nat k <= maxRetries c ->
  (forall j, 0 <= j < Z.of_nat k -> retryable (Do req j) = true) ->
  Do req (Z.of_nat k) = DoOk r ->
  StatusCode r < 400 ->
  decodeModels (RespBody r) = inl listed ->
  let run := GetAvailableModels jsonMarshal newRequestErr Do
               unmarshalEnvelope decodeModels c in
  models run = Ok (map Id (Models listed)) /\
  (forall ids, models run = Ok ids -> length ids = length (Models listed)) /\
  printed run = Some r /\ bodyClosed run = true /\
  attempts (requestEvents run) = S k /\
  (forall otherMarshal,
     GetAvailableModels otherMarshal newRequestErr Do unmarshalEnvelope
       decodeModels c = run).
Proof.
  intros Hn req Hk Hall Hdo Hstatus Hdec. cbn zeta.
  unfold GetAvailableModels.
  rewrite (makeRequest_ok jsonMarshal newRequestErr Do unmarshalEnvelope
             c "GET" "/models" None None k r eq_refl Hn Hk Hall Hdo Hstatus).
  rewrite Hdec. cbn [models printed bodyClosed requestEvents].
  split; [reflexivity|]. split.
  { intros ids H. inversion H. now rewrite length_map. }
  split; [reflexivity|]. split; [reflexivity|].
  split; [apply attempts_loopTrace|]. intros otherMarshal.
  rewrite (makeRequest_ok otherMarshal newRequestErr Do unmarshalEnvelope
             c "GET" "/models" None None k r eq_refl Hn Hk Hall Hdo Hstatus).
  now rewrite Hdec.
Qed.

Lemma models_listed_in_order_witness :
  let vendor := fun (_ : Request) (_ : Z) =>
    DoOk {| StatusCode := 200;
            RespBody := {| data := "{}"; readErr := None; endWithData := false; closed := false |} |} in
  let decode := fun (_ : Body) =>
    inl {| mr_Object := "list";
           Models := [{| Id := "gpt-4"; mo_Object := "model"; mo_Created := 0;
                         Owned := "openai" |};
                      {| Id := "gpt-3.5-turbo"; mo_Object := "model";
                         mo_Created := 0; Owned := "openai" |}] |} in
  models (GetAvailableModels sampleMarshal sampleNewRequestErr vendor
            sampleEnvelope decode (sampleClient 3)) =
  Ok ["gpt-4"; "gpt-3.5-turbo"].
Proof.
  cbn zeta.
  apply (models_listed_in_order sampleMarshal sampleNewRequestErr
           (fun _ _ => DoOk {| StatusCode := 200;
              RespBody := {| data := "{}"; readErr := None;
                             endWithData := false;
                             closed := false |} |})
           sampleEnvelope _ (sampleClient 3) 0%nat
           {| StatusCode := 200;
              RespBody := {| data := "{}"; readErr := None; endWithData := false; closed := false |} |}
           {| mr_Object := "list";
              Models := [{| Id := "gpt-4"; mo_Object := "model";
                            mo_Created := 0; Owned := "openai" |};
                         {| Id := "gpt-3.5-turbo"; mo_Object := "model";
                            mo_Created := 0; Owned := "openai" |}] |}).
  - reflexivity.
  - cbn. lia.
  - intros j Hj. lia.
  - reflexivity.
  - cbn. lia.
  - reflexivity.
Defined.

(** * Further properties of the service *)

(** ** Registration and lookup *)

Lemma registerAll_providers regs : forall (s : Service) (name : string),
  providers (registerAll regs s) !! name =
  match lastRegistered name regs with
  | Some p => Some p
  | None => providers s !! name
  end.
Proof.
  induction regs as [|[n p] regs IH]; intros s name; [reflexivity|].
  cbn [registerAll fold_left fst snd RegisterProvider lastRegistered].
  change (fold_left _ regs ?s') with (registerAll regs s').
  rewrite IH. destruct (lastRegistered name regs); [reflexivity|].
  cbn [providers]. destruct (String.eqb_spec n name) as [->|Hne].
  - apply lookup_insert_eq.
  - now apply lookup_insert_ne.
Qed.

(** X13: after any sequence of registrations, looking a name up gives the
    provider of the last registration under that name, the earlier ones
    being overwritten without notice; a name that the sequence does not
    register is looked up as before. *)
Theorem registry_last_write_wins
    (regs : list (string * Provider)) (s : Service) (name : string) :
  GetProvider (registerAll regs s) name =
  match lastRegistered name regs with
  | Some p => Ok p
  | None => GetProvider s name
  end.
Proof.
  unfold GetProvider. rewrite registerAll_providers.
  now destruct (lastRegistered name regs).
Qed.

(** Registering twice under one name keeps the second provider. *)
Example registry_overwrite :
  GetProvider
    (registerAll [("openai", chattyProvider); ("openai", pongProvider)]
                 NewService) "openai" = Ok pongProvider.
Proof. unfold GetProvider. rewrite registerAll_providers. reflexivity. Qed.

(** X14: the names that [ListProviders] returns are, each once, exactly
    the names for which [GetProvider] succeeds. *)
Theorem listed_providers_are_registered (s : Service) :
  List.NoDup (ListProviders s) /\
  forall name,
    In name (ListProviders s) <-> exists p, GetProvider s name = Ok p.
Proof.
  unfold ListProviders, GetProvider. split.
  - apply NoDup_ListNoDup, fin_maps.NoDup_fst_map_to_list.
  - intros name. rewrite <- list_elem_of_In, list_elem_of_fmap. split.
    + intros ([n p] & -> & Hin). apply elem_of_map_to_list in Hin.
      cbn [fst]. rewrite Hin. now exists p.
    + intros (p & Hget). destruct (providers s !! name) as [q|] eqn:Hq;
        [|discriminate].
      exists (name, q). split; [reflexivity|]. now apply elem_of_map_to_list.
Qed.

(** ** Calls through the service *)

(** X15: for a registered provider, [Chat] of the service returns what the
    provider returns, response or error, and only adds log lines around the
    events of the provider: one before the call, and one after it unless
    the provider panics. *)
Theorem service_chat_is_observational
    (s : Service) (name : string) (p : Provider) (req : ChatRequest) :
  GetProvider s name = Ok p ->
  snd (ServiceChat s name req) = snd (ai.Chat p req) /\
  exists before after,
    fst (ServiceChat s name req) =
      before :: EvChat name :: fst (ai.Chat p req) ++ after /\
    isLog before = true /\ forallb isLog after = true /\
    (length after <= 1)%nat.
Proof.
  intros Hget. unfold ServiceChat. rewrite Hget.
  destruct (ai.Chat p req) as [evs [response|e|]]; cbn [fst snd].
  - split; [reflexivity|]. eexists _, [_]. repeat split. cbn. lia.
  - split; [reflexivity|]. eexists _, [_]. repeat split. cbn. lia.
  - split; [reflexivity|]. eexists _, []. rewrite app_nil_r.
    repeat split. cbn. lia.
Qed.

Lemma service_chat_is_observational_witness :
  snd (ServiceChat (registerAll [("pong", pongProvider)] NewService)
                   "pong" sampleRequest) =
  snd (ai.Chat pongProvider sampleRequest).
Proof.
  apply (service_chat_is_observational
           (registerAll [("pong", pongProvider)] NewService)
           "pong" pongProvider sampleRequest).
  vm_compute. reflexivity.
Defined.

(** X16: when the lookup of the provider fails, every other entry point of
    the service fails with the same error and causes no event: nothing is
    logged and no provider is called. *)
Theorem service_lookup_failure_propagates
    (s : Service) (name model message : string)
    (messages : list Message) (e : error) :
  GetProvider s name = Err e ->
  SimpleChat s name model message = ([], Err e) /\
  ChatWithHistory s name model messages = ([], Err e) /\
  GetProviderModels s name = ([], Err e) /\
  HealthCheck s name = ([], Err e).
Proof.
  intros Hget.
  unfold SimpleChat, ChatWithHistory, GetProviderModels, HealthCheck,
    ServiceChat.
  rewrite Hget. auto.
Qed.

Lemma service_lookup_failure_propagates_witness :
  SimpleChat NewService "claude" "m" "hi" = ([], Err (ErrNotFound "claude")) /\
  ChatWithHistory NewService "claude" "m" [] =
    ([], Err (ErrNotFound "claude")) /\
  GetProviderModels NewService "claude" = ([], Err (ErrNotFound "claude")) /\
  HealthCheck NewService "claude" = ([], Err (ErrNotFound "claude")).
Proof.
  apply (service_lookup_failure_propagates NewService "claude" "m" "hi" []
           (ErrNotFound "claude")).
  vm_compute. reflexivity.
Defined.

(** X17: for a registered provider, [SimpleChat] returns the text of the
    response that the provider gives to a request made of the model as
    passed and of the message as its only one, from the user, or the error
    of the provider; [ChatWithHistory] does the same with the messages it is
    given, so that [SimpleChat] is [ChatWithHistory] on that one message. *)
Theorem simple_chat_returns_content
    (s : Service) (name model message : string)
    (messages : list Message) (p : Provider) :
  GetProvider s name = Ok p ->
  snd (ChatWithHistory s name model messages) =
    contentOf (snd (ai.Chat p (historyRequest model messages))) /\
  snd (SimpleChat s name model message) =
    contentOf (snd (ai.Chat p (historyRequest model
                 [{| Role := "user"; msg_Content := message |}]))) /\
  SimpleChat s name model message =
    ChatWithHistory s name model [{| Role := "user"; msg_Content := message |}].
Proof.
  intros Hget. unfold SimpleChat, ChatWithHistory, ServiceChat.
  rewrite Hget. repeat split.
  - destruct (ai.Chat p (historyRequest model messages)) as [evs [r|e|]];
      reflexivity.
  - destruct (ai.Chat p (historyRequest model _)) as [evs [r|e|]];
      reflexivity.
Qed.

Lemma simple_chat_returns_content_witness :
  snd (SimpleChat (registerAll [("pong", pongProvider)] NewService)
                  "pong" "m" "ping") =
  contentOf (snd (ai.Chat pongProvider (historyRequest "m"
               [{| Role := "user"; msg_Content := "ping" |}]))).
Proof.
  apply (simple_chat_returns_content
           (registerAll [("pong", pongProvider)] NewService)
           "pong" "m" "ping" [] pongProvider).
  vm_compute. reflexivity.
Defined.

(** X18: for a registered provider, [HealthCheck] succeeds exactly when the
    provider returns a response to the test message, fails with the error
    of the provider otherwise, and writes no log line of its own; and
    [GetProviderModels] is the call of the provider, events and result. *)
Theorem health_check_follows_provider
    (s : Service) (name : string) (p : Provider) :
  GetProvider s name = Ok p ->
  (snd (HealthCheck s name) = Ok tt <->
   exists response, snd (ai.Chat p healthRequest) = Ok response) /\
  (forall e, snd (HealthCheck s name) = Err e <->
             snd (ai.Chat p healthRequest) = Err e) /\
  fst (HealthCheck s name) = EvChat name :: fst (ai.Chat p healthRequest) /\
  GetProviderModels s name = ai.GetAvailableModels p.
Proof.
  intros Hget. unfold HealthCheck, GetProviderModels. rewrite Hget.
  destruct (ai.Chat p healthRequest) as [evs [r|e'|]]; cbn [fst snd];
    repeat split; try discriminate; try congruence; eauto;
    try (intros (? & H); discriminate).
Qed.

Lemma health_check_follows_provider_witness :
  snd (HealthCheck (registerAll [("pong", pongProvider)] NewService) "pong")
  = Ok tt.
Proof.
  apply (health_check_follows_provider
           (registerAll [("pong", pongProvider)] NewService)
           "pong" pongProvider).
  - vm_compute. reflexivity.
  - eexists. reflexivity.
Defined.

(** ** What the wrapper logs *)

(** X19: the wrapper of a stream logs one line when it forwards a terminal
    chunk and nothing else: after an error chunk, the error; after a done
    chunk, the number of chunks forwarded before it; and when the stream
    closes without terminal chunk, no line at all. *)
Theorem wrapper_log
    (name : string) (pre : list StreamResponse) (n : Z) :
  Forall nonTerminal pre ->
  snd (logStream name pre n) = [] /\
  forall c rest,
    terminal c = true ->
    snd (logStream name (pre ++ c :: rest) n) =
    match Error c with
    | Some e => [EvLog "Stream error from %s: %v" [LStr name; LErr e]]
    | None =>
      [EvLog "Stream chat request to %s completed in %v (%d chunks)"
             [LStr name; LDuration; LInt (n + Z.of_nat (length pre))]]
    end.
Proof.
  intros Hpre. revert n. induction Hpre as [|x pre Hx _ IH]; intros n.
  - split; [reflexivity|]. intros c rest Hc. cbn [app logStream length].
    unfold terminal, hasError in Hc. destruct (Error c); [reflexivity|].
    rewrite orb_false_r in Hc. rewrite Hc. now rewrite Z.add_0_r.
  - unfold nonTerminal, terminal, hasError in Hx.
    apply orb_false_iff in Hx as [Hdone Herr].
    destruct (IH (n + 1)) as [Hnone Hlog].
    split.
    + cbn [logStream]. destruct (Error x); [discriminate|]. rewrite Hdone.
      destruct (logStream name pre (n + 1)). exact Hnone.
    + intros c rest Hc. cbn [app logStream].
      destruct (Error x); [discriminate|]. rewrite Hdone.
      specialize (Hlog c rest Hc).
      destruct (logStream name (pre ++ c :: rest) (n + 1)) as [out evs].
      cbn [snd] in *. rewrite Hlog. cbn [length].
      replace (n + 1 + Z.of_nat (length pre))
        with (n + Z.of_nat (S (length pre))) by lia.
      reflexivity.
Qed.

Lemma wrapper_log_witness :
  snd (logStream "openai"
         [{| ID := "x"; Content := "Hi"; Done := false; Error := None |}] 0)
  = [].
Proof.
  apply (wrapper_log "openai"
           [{| ID := "x"; Content := "Hi"; Done := false; Error := None |}] 0).
  repeat constructor.
Defined.

(** * Properties of the consumer *)

(** ** Draining a stream *)

Lemma drain_upto cs : forall acc,
  cli.drain (uptoTerminal cs) acc = cli.drain cs acc.
Proof.
  induction cs as [|c cs IH]; intros acc; [reflexivity|].
  cbn [uptoTerminal]. unfold terminal, hasError.
  destruct (Error c) as [e|] eqn:He.
  - rewrite orb_true_r. cbn [cli.drain]. now rewrite He.
  - rewrite orb_false_r. destruct (Done c) eqn:Hd; cbn [cli.drain];
      rewrite He, Hd; [reflexivity | apply IH].
Qed.

(** X20: the loop of [askAI] yields the texts of the chunks that come
    before the first terminal chunk, one after the other: as the reply when
    that chunk is done, its own text being dropped, or when the stream
    closes without terminal chunk; and it yields the error alone, without
    the texts, when that chunk carries one. *)
Theorem drain_outcome (pre : list StreamResponse) (acc : string) :
  Forall nonTerminal pre ->
  cli.drain pre acc = cli.responseMsg (acc +:+ replyOf pre) /\
  forall c rest,
    terminal c = true ->
    cli.drain (pre ++ c :: rest) acc =
    match Error c with
    | Some e => cli.errMsg e
    | None => cli.responseMsg (acc +:+ replyOf pre)
    end.
Proof.
  intros Hpre. revert acc. induction Hpre as [|x pre Hx _ IH]; intros acc.
  - cbn [cli.drain replyOf app]. rewrite append_nil_r.
    split; [reflexivity|]. intros c rest Hc.
    unfold terminal, hasError in Hc. destruct (Error c); [reflexivity|].
    rewrite orb_false_r in Hc. now rewrite Hc.
  - unfold nonTerminal, terminal, hasError in Hx.
    apply orb_false_iff in Hx as [Hdone Herr].
    destruct (IH (acc +:+ Content x)) as [Hall Hterm].
    cbn [cli.drain replyOf app]. destruct (Error x); [discriminate|].
    rewrite Hdone, <- append_assoc. split; [exact Hall | exact Hterm].
Qed.

Lemma drain_outcome_witness :
  cli.drain [{| ID := "x"; Content := "Hi"; Done := false; Error := None |}] ""
  = cli.responseMsg ("" +:+ replyOf
      [{| ID := "x"; Content := "Hi"; Done := false; Error := None |}]).
Proof.
  apply (drain_outcome
           [{| ID := "x"; Content := "Hi"; Done := false; Error := None |}] "").
  repeat constructor.
Defined.

(** X21: the consumer cannot tell the stream of the logging wrapper from
    the stream of the provider: draining either yields the same message,
    even when the provider goes on after its terminal chunk. *)
Theorem drain_through_wrapper
    (name : string) (cs : list StreamResponse) (n : Z) (acc : string) :
  cli.drain (fst (logStream name cs n)) acc = cli.drain cs acc.
Proof. rewrite logStream_upto. apply drain_upto. Qed.

Section Terminal.

Variable textareaModel : Type.
Variable textareaCmd : Type.
Variable textareaNew : textareaModel.
Variable textareaValue : textareaModel -> string.
Variable textareaReset : textareaModel -> textareaModel.
Variable textareaUpdate :
  textareaModel -> cli.msg -> textareaModel * textareaCmd.
Variable TrimSpace : string -> string.
Variable errorText : error -> string.

Let Update := cli.Update textareaValue textareaReset textareaUpdate
                         TrimSpace errorText.
Let runUpdates := cli.runUpdates textareaValue textareaReset textareaUpdate
                                 TrimSpace errorText.

(** X22: the command of [askAI] asks the provider registered as openai for
    a stream on the conversation of the model with the model name gpt-5,
    and yields what draining the stream of that provider yields; it yields
    the error of the provider when the call fails, and the lookup error,
    without any event, when no provider is registered under that name. *)
Theorem askAI_message (m : cli.ChatModel textareaModel) :
  (forall e, GetProvider (cli.aiService m) "openai" = Err e ->
     cli.askAI m = ([], Some (cli.errMsg e))) /\
  (forall p, GetProvider (cli.aiService m) "openai" = Ok p ->
     snd (cli.askAI m) =
     match snd (ai.ChatStream p
                  {| Messages := cli.messages m; Model := "gpt-5";
                     MaxTokens := 0; Temperature := 0%float;
                     Stream := false |}) with
     | Ok cs => Some (cli.drain cs "")
     | Err e => Some (cli.errMsg e)
     | Panic => None
     end).
Proof.
  split.
  - intros e Hget. unfold cli.askAI, ServiceChatStream. now rewrite Hget.
  - intros p Hget. unfold cli.askAI, ServiceChatStream, cli.askRequest.
    rewrite Hget.
    destruct (ai.ChatStream p _) as [evs [cs|e|]]; cbn [snd];
      [|reflexivity|reflexivity].
    assert (Hdrain : cli.drain (fst (logStream "openai" cs 0)) "" =
                     cli.drain cs "")
      by (rewrite logStream_upto; apply drain_upto).
    rewrite <- Hdrain. now destruct (logStream "openai" cs 0).
Qed.

Lemma Update_grows (m : cli.ChatModel textareaModel) (msg0 : cli.msg) :
  cli.aiService (fst (Update m msg0)) = cli.aiService m /\
  exists h ms,
    cli.history (fst (Update m msg0)) = cli.history m ++ h /\
    cli.messages (fst (Update m msg0)) = cli.messages m ++ ms /\
    Forall turnMessage ms /\
    (length h <= 1)%nat /\ (length ms <= 1)%nat.
Proof.
  assert (Hsame : forall m' : cli.ChatModel textareaModel,
            cli.aiService m' = cli.aiService m ->
            cli.history m' = cli.history m ->
            cli.messages m' = cli.messages m ->
            cli.aiService m' = cli.aiService m /\
            exists h ms,
              cli.history m' = cli.history m ++ h /\
              cli.messages m' = cli.messages m ++ ms /\
              Forall turnMessage ms /\
              (length h <= 1)%nat /\ (length ms <= 1)%nat).
  { intros m' Hs Hh Hm. split; [exact Hs|]. exists [], [].
    rewrite !app_nil_r. cbn [length]. repeat split; auto. }
  assert (Hfwd : forall x,
            cli.aiService (fst (cli.forward textareaUpdate m x)) =
              cli.aiService m /\
            exists h ms,
              cli.history (fst (cli.forward textareaUpdate m x)) =
                cli.history m ++ h /\
              cli.messages (fst (cli.forward textareaUpdate m x)) =
                cli.messages m ++ ms /\
              Forall turnMessage ms /\
              (length h <= 1)%nat /\ (length ms <= 1)%nat).
  { intros x. unfold cli.forward.
    destruct (textareaUpdate (cli.textarea m) x) as [ta c0].
    now apply Hsame. }
  unfold Update, cli.Update. destruct msg0 as [key|reply|e|].
  - destruct (String.eqb key "ctrl+c" || String.eqb key "esc");
      [now apply Hsame|].
    destruct (String.eqb key "enter"); [|apply Hfwd].
    destruct (String.eqb_spec (TrimSpace (textareaValue (cli.textarea m))) "")
      as [|Hne]; cbn [negb]; [apply Hfwd|].
    cbn [fst cli.aiService cli.history cli.messages].
    split; [reflexivity|]. eexists [_], [_]. cbn [length].
    repeat split; auto. constructor; [|constructor]. left. now split.
  - cbn [fst cli.aiService cli.history cli.messages].
    split; [reflexivity|]. eexists [_], [_]. cbn [length].
    repeat split; auto. constructor; [|constructor]. now right.
  - cbn [fst cli.aiService cli.history cli.messages].
    split; [reflexivity|]. exists ["Error: " +:+ errorText e], [].
    rewrite app_nil_r. cbn [length]. repeat split; auto.
  - apply Hfwd.
Qed.

(** X23: whatever messages the terminal receives and whatever model it
    starts from, the model keeps its service, and its transcript and its
    conversation are the ones it had, kept whole and in place, followed by
    at most one new line and one new message for each message received;
    the new messages are only what the user typed, never empty, and
    replies. A reply adds exactly its line and its assistant message at the
    end, an error exactly its line, and an accepted question exactly its
    line and its user message, the command being [askAI] on the model so
    extended. From the initial model the transcript thus starts with the
    welcome line and the conversation with the system prompt. *)
Theorem conversation_invariant :
  (forall (m : cli.ChatModel textareaModel) (msgs : list cli.msg),
     cli.aiService (runUpdates m msgs) = cli.aiService m /\
     exists h ms,
       cli.history (runUpdates m msgs) = cli.history m ++ h /\
       cli.messages (runUpdates m msgs) = cli.messages m ++ ms /\
       Forall turnMessage ms /\
       (length h <= length msgs)%nat /\ (length ms <= length msgs)%nat) /\
  (forall (m : cli.ChatModel textareaModel) (reply : string),
     cli.history (fst (Update m (cli.responseMsg reply))) =
       cli.history m ++ ["AI: " +:+ reply] /\
     cli.messages (fst (Update m (cli.responseMsg reply))) =
       cli.messages m ++
       [{| Role := "assistant"; msg_Content := reply |}]) /\
  (forall (m : cli.ChatModel textareaModel) (e : error),
     cli.history (fst (Update m (cli.errMsg e))) =
       cli.history m ++ ["Error: " +:+ errorText e] /\
     cli.messages (fst (Update m (cli.errMsg e))) = cli.messages m) /\
  (forall (m : cli.ChatModel textareaModel),
     TrimSpace (textareaValue (cli.textarea m)) <> "" ->
     let question := TrimSpace (textareaValue (cli.textarea m)) in
     let m' := fst (Update m (cli.KeyMsg "enter")) in
     cli.history m' = cli.history m ++ ["You: " +:+ question] /\
     cli.messages m' =
       cli.messages m ++ [{| Role := "user"; msg_Content := question |}] /\
     snd (Update m (cli.KeyMsg "enter")) =
       cli.cmdAskAI textareaModel textareaCmd m') /\
  (forall (svc : Service) (msgs : list cli.msg),
     let m := runUpdates (cli.NewChatModel textareaNew svc) msgs in
     cli.aiService m = svc /\
     exists h ms,
       cli.history m = "Welcome to AI Chat!" :: h /\
       cli.messages m =
         {| Role := "system"; msg_Content := "You are a helpful assistant." |}
         :: ms /\
       Forall turnMessage ms).
Proof.
  assert (Hgen : forall (l : list cli.msg) (m : cli.ChatModel textareaModel),
            cli.aiService (runUpdates m l) = cli.aiService m /\
            exists h ms,
              cli.history (runUpdates m l) = cli.history m ++ h /\
              cli.messages (runUpdates m l) = cli.messages m ++ ms /\
              Forall turnMessage ms /\
              (length h <= length l)%nat /\ (length ms <= length l)%nat).
  { induction l as [|x l IH]; intros m.
    - split; [reflexivity|]. exists [], []. rewrite !app_nil_r.
      cbn [length]. repeat split; auto.
    - unfold runUpdates, cli.runUpdates. cbn [fold_left].
      fold (Update m x).
      change (fold_left _ l ?m') with (runUpdates m' l).
      destruct (IH (fst (Update m x)))
        as (Hs & h & ms & Hh & Hm & Hok & Hlh & Hlm).
      destruct (Update_grows m x)
        as (Hs' & h' & ms' & Hh' & Hm' & Hok' & Hlh' & Hlm').
      split; [congruence|]. exists (h' ++ h), (ms' ++ ms).
      rewrite Hh, Hm, Hh', Hm', <- !app_assoc, !length_app. cbn [length].
      repeat split; try lia. apply Forall_app. now split. }
  split; [intros m msgs; apply Hgen|].
  split; [intros m reply; split; reflexivity|].
  split; [intros m e; split; reflexivity|].
  split.
  - intros m Hne. cbn zeta. unfold Update, cli.Update.
    change (String.eqb "enter" "ctrl+c" || String.eqb "enter" "esc")
      with false.
    change (String.eqb "enter" "enter") with true. cbn iota.
    destruct (String.eqb_spec (TrimSpace (textareaValue (cli.textarea m))) "")
      as [|_]; [contradiction|].
    cbn [negb fst snd cli.history cli.messages]. repeat split.
  - intros svc msgs. cbn zeta.
    destruct (Hgen msgs (cli.NewChatModel textareaNew svc))
      as (Hs & h & ms & Hh & Hm & Hok & _ & _).
    split; [exact Hs|]. exists h, ms. rewrite Hh, Hm. auto.
Qed.

End Terminal.

Lemma conversation_invariant_witness :
  let Update := cli.Update (textareaCmd := unit) (fun ta : string => ta)
                  (fun _ => "") (fun ta _ => (ta, tt)) (fun q => q)
                  (fun _ => "error") in
  let m := {| cli.aiService := NewService; cli.textarea := "hello";
              cli.history := ["Welcome to AI Chat!"];
              cli.messages := []; cli.err := None |} in
  let m' := fst (Update m (cli.KeyMsg "enter")) in
  cli.history m' = ["Welcome to AI Chat!"] ++ ["You: " +:+ "hello"] /\
  cli.messages m' = [] ++ [{| Role := "user"; msg_Content := "hello" |}] /\
  snd (Update m (cli.KeyMsg "enter")) = cli.cmdAskAI string unit m'.
Proof.
  apply (proj1 (proj2 (proj2 (proj2
           (conversation_invariant string unit ""
              (fun ta : string => ta) (fun _ => "") (fun ta _ => (ta, tt))
              (fun q => q) (fun _ => "error")))))
           {| cli.aiService := NewService; cli.textarea := "hello";
              cli.history := ["Welcome to AI Chat!"];
              cli.messages := []; cli.err := None |}).
  discriminate.
Defined.

Lemma askAI_message_witness :
  snd (cli.askAI
         (cli.NewChatModel "" (registerAll [("openai", chattyProvider)]
                                            NewService))) =
  match snd (ai.ChatStream chattyProvider
               {| Messages :=
                    cli.messages
                      (cli.NewChatModel ""
                         (registerAll [("openai", chattyProvider)] NewService));
                  Model := "gpt-5"; MaxTokens := 0; Temperature := 0%float;
                  Stream := false |}) with
  | Ok cs => Some (cli.drain cs "")
  | Err e => Some (cli.errMsg e)
  | Panic => None
  end.
Proof.
  apply (proj2 (askAI_message string
                  (cli.NewChatModel (textareaModel := string) ""
                     (registerAll [("openai", chattyProvider)] NewService)))
           chattyProvider).
  vm_compute. reflexivity.
Defined.

(** * From the vendor to the consumer *)

Lemma logStream_decoder name um b n :
  fst (logStream name (decodeBody um b) n) = decodeBody um b.
Proof.
  rewrite logStream_upto. unfold decodeBody.
  destruct (streamGoroutine_sent um (NewScanner b)) as [Hterm|Hquiet].
  - destruct Hterm as (pre & c & -> & Hpre & _). now apply uptoTerminal_last.
  - now apply uptoTerminal_quiet.
Qed.

(** X24: a streaming call through the service to a provider whose stream
    is the one of the OpenAI client sends the converted request, with
    streaming forced on and the default model when none is given; when the
    vendor, after [k] retryable outcomes, answers with a status below 400,
    the call succeeds and the channel of the service delivers exactly the
    chunks that the decoder makes of the body of that response. *)
Theorem service_stream_of_client
    (um : string -> openAIStreamResponse + error)
    (jsonMarshal : openAIChatRequest -> string + error)
    (newRequestErr : string -> string -> option error)
    (Do : Request -> Z -> DoResult)
    (unmarshalEnvelope : string -> option ProviderError)
    (c : Client) (s : Service) (name : string) (p : Provider)
    (req : ChatRequest) (js : string) (k : nat) (r : Response) :
  GetProvider s name = Ok p ->
  ai.ChatStream p req =
    openai.ChatStream um jsonMarshal newRequestErr Do unmarshalEnvelope c req ->
  jsonMarshal (convertRequest req) = inl js ->
  newRequestErr "POST" (baseURL c +:+ "/chat/completions") = None ->
  let sentReq := newRequest c "POST" "/chat/completions" (Some js) in
  Z.of_nat k <= maxRetries c ->
  (forall j, 0 <= j < Z.of_nat k -> retryable (Do sentReq j) = true) ->
  Do sentReq (Z.of_nat k) = DoOk r ->
  StatusCode r < 400 ->
  r_Stream (convertRequest req) = true /\
  r_Model (convertRequest req) <> "" /\
  exists log,
    snd (ServiceChatStream s name req) =
      Ok (decodeBody um (RespBody r), log).
Proof.
  intros Hget Hp Hjs Hn sentReq Hk Hall Hdo Hstatus.
  split; [reflexivity|]. split.
  { unfold convertRequest. cbn [r_Model].
    destruct (String.eqb_spec (Model req) ""); [discriminate | assumption]. }
  unfold ServiceChatStream. rewrite Hget, Hp. unfold openai.ChatStream.
  rewrite (makeRequest_ok jsonMarshal newRequestErr Do unmarshalEnvelope
             c "POST" "/chat/completions" (Some (convertRequest req))
             (Some js) k r).
  - cbn [snd]. exists (snd (logStream name (decodeBody um (RespBody r)) 0)).
    rewrite <- (logStream_decoder name um (RespBody r) 0) at 2.
    now destruct (logStream name (decodeBody um (RespBody r)) 0).
  - cbn [marshalBody]. now rewrite Hjs.
  - exact Hn.
  - exact Hk.
  - exact Hall.
  - exact Hdo.
  - exact Hstatus.
Qed.

Lemma service_stream_of_client_witness :
  r_Stream (convertRequest sampleRequest) = true /\
  r_Model (convertRequest sampleRequest) <> "" /\
  exists log,
    snd (ServiceChatStream (registerAll [("openai", clientProvider)] NewService)
                           "openai" sampleRequest) =
      Ok (decodeBody sampleUnmarshal scenarioBody, log).
Proof.
  apply (service_stream_of_client sampleUnmarshal sampleMarshal
           sampleNewRequestErr scenarioVendor sampleEnvelope (sampleClient 3)
           (registerAll [("openai", clientProvider)] NewService)
           "openai" clientProvider sampleRequest
           "{}" 0%nat {| StatusCode := 200; RespBody := scenarioBody |}).
  - vm_compute. reflexivity.
  - reflexivity.
  - reflexivity.
  - reflexivity.
  - cbn. lia.
  - intros j Hj. lia.
  - reflexivity.
  - cbn. lia.
Defined.

(** * Streams from end to end *)

(** ** Lines after which the stream goes on *)







(** ** Streams with the end marker *)



(** The stream of the witness: the chunk of the first frame, nothing for
    the frame without choice, and the done chunk with the id of that
    frame. *)
Example done_marker_after_empty_frame :
  decodeBody sampleUnmarshal
    {| data := joinLines CRLF
                 [dataLine payloadHi; ""; dataLine payloadNoChoices;
                  "data: [DONE]"; ""];
       readErr := None; endWithData := false; closed := false |} =
  [{| ID := "x"; Content := "Hi"; Done := false; Error := None |};
   {| ID := "y"; Content := ""; Done := true; Error := None |}].
Proof. vm_compute. reflexivity. Qed.

(** ** Bodies that end before a terminal frame *)

(** The loop never sends a chunk with a scanning error. *)
Lemma scanLoop_no_scan_error um lines : forall id n c err,
  In c (sent (scanLoop um lines id n)) -> Error c <> Some (ErrStreamScan err).
Proof.
  induction lines as [|line lines IH]; intros id n c err; cbn [scanLoop].
  - cbn. tauto.
  - destruct (String.eqb line "" || HasPrefix line ":"); [apply IH|].
    destruct (HasPrefix line "data: "); [|apply IH].
    destruct (String.eqb (TrimPrefix line "data: ") "[DONE]").
    { cbn. intros [<-|[]]. discriminate. }
    destruct (um (TrimPrefix line "data: ")) as [r|e].
    2:{ cbn. intros [<-|[]]. discriminate. }
    destruct (Choices r) as [|ch chs]; [apply IH|].
    destruct (FinishReason ch).
    { cbn. intros [<-|[]]. discriminate. }
    cbn [send sent In]. intros [<-|Hin]; [discriminate | exact (IH _ _ _ _ Hin)].
Qed.

(** C3, as the code has it. When the lines that the scanner yielded, a last
    line cut by the end of the body included, made the loop send no terminal
    chunk: if the scanner stopped on an error, the goroutine sends one more
    chunk, which carries the scanning error that wraps it, and if the
    scanner reached the end of the body without error nothing is added, so
    that no terminal chunk is delivered. When one of those lines made the
    loop send a terminal chunk, that chunk is the last one delivered and the
    error of the scanner is not reported; so it is for a body that a read
    error cuts inside a data frame that does not decode: the last chunk
    carries the parse error of the cut frame. *)
Theorem premature_end_of_body (um : string -> openAIStreamResponse + error) :
  (forall sc : Scanner,
     Forall nonTerminal (sent (scanLoop um (tokens sc) "" 0)) ->
     match scanErr sc with
     | Some err =>
       sent (streamGoroutine um sc) =
         sent (scanLoop um (tokens sc) "" 0) ++
         [errorChunk (ErrStreamScan err)]
     | None =>
       sent (streamGoroutine um sc) = sent (scanLoop um (tokens sc) "" 0) /\
       Forall nonTerminal (sent (streamGoroutine um sc))
     end) /\
  (forall sc : Scanner,
     ~ Forall nonTerminal (sent (scanLoop um (tokens sc) "" 0)) ->
     sent (streamGoroutine um sc) = sent (scanLoop um (tokens sc) "" 0) /\
     wellTerminated (sent (streamGoroutine um sc)) /\
     forall c err,
       In c (sent (streamGoroutine um sc)) ->
       Error c <> Some (ErrStreamScan err)) /\
  (forall (lines : list string) (payload : string) (perr rerr : error)
          (w : bool),
     Forall plainLine lines ->
     plainLine (dataLine payload) ->
     returned (scanLoop um lines "" 0) = false ->
     payload <> "[DONE]" ->
     um payload = inr perr ->
     decodeBody um
       {| data := joinLines LF lines +:+ dataLine payload;
          readErr := Some rerr; endWithData := w; closed := false |} =
     sent (scanLoop um lines "" 0) ++ [errorChunk (ErrStreamParse perr)]).
Proof.
  split; [|split].
  - intros sc Hquiet.
    pose proof (scanLoop_quiet_running _ _ _ _ Hquiet) as Hret.
    unfold streamGoroutine. rewrite Hret.
    destruct (scanErr sc); [reflexivity | split; [reflexivity | exact Hquiet]].
  - intros sc Hterm.
    pose proof (scanLoop_sent um (tokens sc) "" 0) as Hsent.
    cbn zeta in Hsent. unfold streamGoroutine.
    destruct (returned (scanLoop um (tokens sc) "" 0)); [|contradiction].
    split; [reflexivity|]. split; [exact Hsent|].
    intros c err. apply scanLoop_no_scan_error.
  - intros lines payload perr rerr w Hplain (Hnl & Hcr & Hlen) Hrun Hne Hum.
    unfold decodeBody, NewScanner. cbn [closed data readErr endWithData].
    rewrite scanLines_joinLines_LF by exact Hplain.
    rewrite scanLines_last; [| exact Hnl | | left].
    + cbn [fst snd]. rewrite rev_rev_app, Hcr.
      unfold streamGoroutine. cbn [tokens scanErr].
      rewrite scanLoop_app. cbn zeta. rewrite Hrun.
      rewrite scanLoop_dataLine by exact Hne. rewrite Hum. reflexivity.
    + unfold dataLine. rewrite length_append. cbn [String.length]. lia.
    + unfold MaxScanTokenSize in *. lia.
Qed.

Lemma premature_end_of_body_witness :
  sent (streamGoroutine sampleUnmarshal
          {| tokens := [": keep-alive"];
             scanErr := Some (ErrExternal "unexpected EOF") |}) =
    [] ++ [errorChunk (ErrStreamScan (ErrExternal "unexpected EOF"))] /\
  decodeBody sampleUnmarshal
    {| data := joinLines LF [dataLine payloadHi; ""] +:+ dataLine "{oops";
       readErr := Some (ErrExternal "unexpected EOF");
       endWithData := false; closed := false |} =
    sent (scanLoop sampleUnmarshal [dataLine payloadHi; ""] "" 0) ++
    [errorChunk (ErrStreamParse (ErrExternal "invalid character"))].
Proof.
  split.
  - apply (proj1 (premature_end_of_body sampleUnmarshal)
             {| tokens := [": keep-alive"];
                scanErr := Some (ErrExternal "unexpected EOF") |}).
    vm_compute. constructor.
  - apply (proj2 (proj2 (premature_end_of_body sampleUnmarshal))
             [dataLine payloadHi; ""] "{oops"
             (ErrExternal "invalid character")
             (ErrExternal "unexpected EOF") false).
    + repeat constructor; vm_compute; reflexivity.
    + repeat constructor; vm_compute; reflexivity.
    + vm_compute. reflexivity.
    + discriminate.
    + vm_compute. reflexivity.
Defined.

(** A body cut by a read error inside its second frame: the chunk of the
    first frame, then the parse error of the cut frame; the read error is
    not reported. *)
Example cut_frame_reports_parse_error :
  decodeBody sampleUnmarshal
    {| data := joinLines LF [dataLine payloadHi; ""] +:+ dataLine "{oops";
       readErr := Some (ErrExternal "unexpected EOF");
       endWithData := false; closed := false |} =
  [{| ID := "x"; Content := "Hi"; Done := false; Error := None |};
   {| ID := ""; Content := ""; Done := false;
      Error := Some (ErrStreamParse (ErrExternal "invalid character")) |}].
Proof. vm_compute. reflexivity. Qed.

(** ** The logging wrapper on the streams of the data model *)

Lemma uptoTerminal_fixed cs :
  uptoTerminal cs = cs <-> noChunkAfterTerminal cs.
Proof.
  induction cs as [|x cs IH].
  - split; [|reflexivity]. intros _ pre c rest H. now destruct pre.
  - cbn [uptoTerminal]. destruct (terminal x) eqn:Hx.
    + split.
      * intros H. inversion H; subst. intros pre c rest Heq _.
        destruct pre as [|y pre]; [now inversion Heq|].
        inversion Heq as [[H1 H2]]. now destruct pre.
      * intros Hno. now rewrite (Hno [] x cs eq_refl Hx).
    + split.
      * intros H. inversion H as [Hcs]. rewrite Hcs.
        apply IH in Hcs. intros pre c rest Heq Hc.
        destruct pre as [|y pre]; inversion Heq; subst; [congruence|].
        now apply (Hcs pre c rest).
      * intros Hno. f_equal. apply IH. intros pre c rest -> Hc.
        now apply (Hno (x :: pre) c rest).
Qed.

(** C7: the wrapper delivers the very sequence of the provider, the same
    chunks in the same order up to the closing of the channel, exactly when
    that sequence follows the rule of the data model that nothing comes
    after a terminal chunk; this is the case of every sequence that the
    OpenAI client delivers. A call that the provider fails, fails with the
    same error, and a call that the provider accepts is accepted, with the
    sequence of the provider up to its first terminal chunk, which is the
    whole sequence when it follows the rule. *)
Theorem logging_wrapper_observational :
  (forall name cs n,
     fst (logStream name cs n) = cs <-> noChunkAfterTerminal cs) /\
  (forall name um sc n,
     noChunkAfterTerminal (sent (streamGoroutine um sc)) /\
     fst (logStream name (sent (streamGoroutine um sc)) n) =
     sent (streamGoroutine um sc)) /\
  (forall (s : Service) name provider req,
     GetProvider s name = Ok provider ->
     match snd (ai.ChatStream provider req) with
     | Ok cs =>
       (exists evs,
          snd (ServiceChatStream s name req) = Ok (uptoTerminal cs, evs)) /\
       (noChunkAfterTerminal cs ->
        exists evs, snd (ServiceChatStream s name req) = Ok (cs, evs))
     | Err e => snd (ServiceChatStream s name req) = Err e
     | Panic => snd (ServiceChatStream s name req) = Panic
     end).
Proof.
  assert (Hiff : forall name cs n,
     fst (logStream name cs n) = cs <-> noChunkAfterTerminal cs).
  { intros. rewrite logStream_upto. apply uptoTerminal_fixed. }
  split; [exact Hiff|]. split.
  - intros name um sc n.
    assert (Hfix : uptoTerminal (sent (streamGoroutine um sc)) =
                   sent (streamGoroutine um sc)).
    { destruct (streamGoroutine_sent um sc) as [Hterm|Hquiet].
      - destruct Hterm as (pre & c & -> & Hpre & _).
        now apply uptoTerminal_last.
      - now apply uptoTerminal_quiet. }
    split; [now apply uptoTerminal_fixed|]. now rewrite logStream_upto.
  - intros s name provider req Hget. unfold ServiceChatStream. rewrite Hget.
    destruct (ai.ChatStream provider req) as [evs [cs|e|]]; cbn [snd];
      [|reflexivity|reflexivity].
    split.
    + exists (snd (logStream name cs 0)).
      rewrite <- (logStream_upto name cs 0).
      now destruct (logStream name cs 0).
    + intros Hno. exists (snd (logStream name cs 0)).
      apply (Hiff name cs 0) in Hno.
      rewrite <- Hno at 2. now destruct (logStream name cs 0).
Qed.

Lemma logging_wrapper_observational_witness :
  match snd (ai.ChatStream clientProvider sampleRequest) with
  | Ok cs =>
    (exists evs,
       snd (ServiceChatStream
              (registerAll [("openai", clientProvider)] NewService)
              "openai" sampleRequest) = Ok (uptoTerminal cs, evs)) /\
    (noChunkAfterTerminal cs ->
     exists evs,
       snd (ServiceChatStream
              (registerAll [("openai", clientProvider)] NewService)
              "openai" sampleRequest) = Ok (cs, evs))
  | Err e =>
    snd (ServiceChatStream
           (registerAll [("openai", clientProvider)] NewService)
           "openai" sampleRequest) = Err e
  | Panic =>
    snd (ServiceChatStream
           (registerAll [("openai", clientProvider)] NewService)
           "openai" sampleRequest) = Panic
  end.
Proof.
  apply (proj2 (proj2 logging_wrapper_observational)
           (registerAll [("openai", clientProvider)] NewService)
           "openai" clientProvider sampleRequest).
  vm_compute. reflexivity.
Defined.

(** Outside the data model: when the channel of a provider delivers a chunk
    after its done chunk, the wrapper stops at the done chunk. *)
Example wrapper_stops_at_terminal :
  fst (logStream "chatty" chattyStream 0) =
  [{| ID := "a"; Content := ""; Done := true; Error := None |}].
Proof. vm_compute. reflexivity. Qed.
